(** * conso.py: consolidation of uploaded CSV files and workbook sheets

    A shallow embedding of the consolidation engine of [conso.py]
    ([consolidate_files], [consolidate_sheets], the sheet selection of the
    sheet-mode branch and the export of the consolidated table), and the
    properties of it that the specification states; then the functions on
    the users collection, the reset of the selections and the two branches
    as wholes, with what the code shows of them.

    The script drives three collaborators that are not part of it: the pandas
    table library, the Streamlit widgets and the uploaded files.  pandas
    tables are modelled in [Module pd] by the operations the script calls
    (column assignment, [concat], [empty]) and by [to_excel]; the readers
    ([read_csv], [read_excel], [ExcelFile.sheet_names]) and the widgets that
    return what the user entered are parameters of the development; the
    Streamlit calls that display something are recorded in a trace. *)

From stdpp Require Import gmap strings list pretty.
From Stdlib Require Import ZArith Ascii.

Local Open Scope string_scope.
Local Open Scope list_scope.
Local Open Scope nat_scope.

(** ** Tables *)

Module pd.

(** A cell holds a scalar or the null marker (NaN), which is [None]. The
    dtype of a column is left out: a cell is the value it shows. *)
Inductive scalar :=
| SStr (s : string)
| SInt (z : Z).

Abbreviation cell := (option scalar).

#[export] Instance scalar_eq_dec : EqDecision scalar.
Proof. solve_decision. Defined.

(** A table: the ordered column labels and the rows, each row holding one
    cell per column, in column order. *)
Record DataFrame := mkDataFrame {
  columns : list string;
  data : list (list cell)
}.

#[export] Instance DataFrame_eq_dec : EqDecision DataFrame.
Proof. solve_decision. Defined.

(** [pd.DataFrame()] *)
Definition DataFrame_new : DataFrame := mkDataFrame [] [].

(** Rows are aligned with the column labels. Every table that a pandas
    reader returns is. *)
Definition aligned (df : DataFrame) : Prop :=
  Forall (fun row => length row = length (columns df)) (data df).

#[export] Instance aligned_dec df : Decision (aligned df).
Proof. unfold aligned. apply _. Defined.

(** [len(df)] *)
Definition nrows (df : DataFrame) : nat := length (data df).

(** [df.empty]: some axis has length 0. *)
Definition empty (df : DataFrame) : bool :=
  bool_decide (length (columns df) = 0) || bool_decide (length (data df) = 0).

(** The cell of [row] under the label [c] (the first column so labelled);
    null when the row has no such column. *)
Fixpoint get_cell (cols : list string) (row : list cell) (c : string) : cell :=
  match cols, row with
  | k :: cols', v :: row' =>
      if decide (k = c) then v else get_cell cols' row' c
  | _, _ => None
  end.

(** The column [c] of a table, top to bottom. *)
Definition column (df : DataFrame) (c : string) : list cell :=
  map (fun row => get_cell (columns df) row c) (data df).

Fixpoint set_cell (cols : list string) (row : list cell) (c : string) (v : cell)
  : list cell :=
  match cols, row with
  | k :: cols', x :: row' =>
      if decide (k = c) then v :: row' else x :: set_cell cols' row' c v
  | _, _ => row
  end.

(** [df[c] = v] with a scalar [v]: an existing column [c] keeps its place
    and has every cell replaced by [v]; otherwise a new column [c], filled
    with [v], is added after the last one. *)
Definition setitem (df : DataFrame) (c : string) (v : scalar) : DataFrame :=
  if decide (c ∈ columns df) then
    mkDataFrame (columns df)
                (map (fun row => set_cell (columns df) row c (Some v)) (data df))
  else
    mkDataFrame (columns df ++ [c]) (map (fun row => row ++ [Some v]) (data df)).

(** Labels of [b] that [a] does not have, in [b]'s order. *)
Definition new_columns (a b : list string) : list string :=
  filter (fun c => c ∉ a) b.

(** A row laid out for the labels [to]: cells are looked up by label and
    the labels the row does not have are null. *)
Definition reindex (from to : list string) (row : list cell) : list cell :=
  map (get_cell from row) to.

(** [pd.concat([a, b], ignore_index=True)]: rows of [a], then rows of [b],
    under the union of the labels in order of first appearance. Cells are
    handed on as they are, as pandas hands on text and nulls; the change of
    an integer column that receives nulls into a column of floats is left
    out. *)
Definition concat (a b : DataFrame) : DataFrame :=
  let cols := columns a ++ new_columns (columns a) (columns b) in
  mkDataFrame cols
    (map (reindex (columns a) cols) (data a) ++
     map (reindex (columns b) cols) (data b)).

(** *** Workbooks *)

(** A worksheet is a grid of cells; a workbook is its named sheets in
    order. The bytes of the xlsx container are not modelled: a workbook
    stands for the byte stream that encodes it. *)
Definition worksheet := list (list cell).
Definition workbook := list (string * worksheet).

End pd.
Import pd.

(** ** The script's state, exceptions and effects *)

(** An uploaded file: its name and its bytes. *)
Record UploadedFile := mkUploadedFile {
  name : string;
  content : string
}.

(** The [sheet_name] argument of [read_excel]: a position (0 when the
    argument is left out) or a sheet's name. *)
Inductive sheet_ref :=
| SheetIndex (i : nat)
| SheetName (s : string).

(** The two classes the handlers of the script tell apart: [ValueError]
    (with its subclasses) and every other [Exception]. Both carry the text
    that [str(e)] gives. *)
Inductive exn :=
| ValueError (msg : string)
| Exception (msg : string).

(** What a run does that can be observed: the calls to the pandas readers
    and the Streamlit calls that put something on the page. *)
Inductive event :=
| ReadCsv (file : string)
| ReadExcel (file : string) (sheet : sheet_ref)
| Error (body : string)
| Warning (body : string)
| Write (body : string)
| Dataframe (df : DataFrame)
| DownloadButton (label : string) (data : workbook) (file_name : string).

#[export] Instance sheet_ref_eq_dec : EqDecision sheet_ref.
Proof. solve_decision. Defined.
#[export] Instance exn_eq_dec : EqDecision exn.
Proof. solve_decision. Defined.
#[export] Instance event_eq_dec : EqDecision event.
Proof. solve_decision. Defined.

(** The variables the consolidation code assigns, and the trace. *)
Record store := mkStore {
  consolidated_data : DataFrame;
  selected_sheets : gmap string (list string);
  global_matching_sheets : list (string * string);
  trace : list event
}.

Definition store_init (session : gmap string (list string)) : store :=
  mkStore DataFrame_new session [] [].

(** Statements: they read and write the store and end normally or with an
    exception; what was assigned before an exception stays assigned. *)
Definition M (A : Type) : Type := store → (exn + A) * store.

#[export] Instance M_ret : MRet M := λ A a s, (inr a, s).
#[export] Instance M_bind : MBind M := λ A B k m s,
  match m s with
  | (inr a, s') => k a s'
  | (inl e, s') => (inl e, s')
  end.

(** [try: body except ValueError as e: ... except Exception as e: ...] *)
Definition try_except {A} (body : M A) (handler : exn → M A) : M A := λ s,
  match body s with
  | (inl e, s') => handler e s'
  | r => r
  end.

(** A library call that returns or raises. *)
Definition call {A} (r : exn + A) : M A := λ s, (r, s).

Definition emit (ev : event) : M unit := λ s,
  (inr (), mkStore (consolidated_data s) (selected_sheets s)
                   (global_matching_sheets s) (trace s ++ [ev])).

Definition get_consolidated_data : M DataFrame := λ s, (inr (consolidated_data s), s).
Definition set_consolidated_data (df : DataFrame) : M unit := λ s,
  (inr (), mkStore df (selected_sheets s) (global_matching_sheets s) (trace s)).

Definition get_selected_sheets : M (gmap string (list string)) := λ s,
  (inr (selected_sheets s), s).
Definition set_selected_sheets (sel : gmap string (list string)) : M unit := λ s,
  (inr (), mkStore (consolidated_data s) sel (global_matching_sheets s) (trace s)).

Definition get_global_matching_sheets : M (list (string * string)) := λ s,
  (inr (global_matching_sheets s), s).
Definition set_global_matching_sheets (g : list (string * string)) : M unit := λ s,
  (inr (), mkStore (consolidated_data s) (selected_sheets s) g (trace s)).

(** [for x in l: body] *)
Fixpoint for_each {A} (l : list A) (body : A → M unit) : M unit :=
  match l with
  | [] => mret ()
  | x :: l' => body x ;; for_each l' body
  end.

Definition st_error (body : string) : M unit := emit (Error body).
Definition st_warning (body : string) : M unit := emit (Warning body).
Definition st_write (body : string) : M unit := emit (Write body).
Definition st_dataframe (df : DataFrame) : M unit := emit (Dataframe df).
Definition st_download_button (label : string) (data : workbook) (file_name : string)
  : M unit := emit (DownloadButton label data file_name).

(** The messages that [st.error] put on the page, in order. *)
Definition errors (t : list event) : list string :=
  omap (fun ev => match ev with Error body => Some body | _ => None end) t.

(** The files handed to a pandas reader, in order. *)
Definition reads (t : list event) : list string :=
  omap (fun ev => match ev with
                  | ReadCsv f | ReadExcel f _ => Some f
                  | _ => None
                  end) t.

(** ** Consolidation *)

(** The pandas readers: the table they parse from the bytes of a file, or
    the exception they raise. *)
Class Readers := {
  (** [pd.read_csv(file)] *)
  read_csv : UploadedFile → exn + DataFrame;
  (** [pd.read_excel(file, sheet_name=...)] *)
  read_excel : UploadedFile → sheet_ref → exn + DataFrame;
  (** [pd.ExcelFile(file).sheet_names] *)
  ExcelFile_sheet_names : UploadedFile → exn + list string
}.

Section Consolidation.

Context {readers : Readers}.

Definition pd_read_csv (file : UploadedFile) : M DataFrame :=
  emit (ReadCsv (name file)) ;; call (read_csv file).

Definition pd_read_excel (file : UploadedFile) (sheet : sheet_ref) : M DataFrame :=
  emit (ReadExcel (name file) sheet) ;; call (read_excel file sheet).

(** The two handlers of [consolidate_files]. *)
Definition files_handler (uploaded_file : UploadedFile) (e : exn) : M unit :=
  match e with
  | ValueError msg =>
      st_error ("Error processing " +:+ name uploaded_file +:+ ": " +:+ msg)
  | Exception msg =>
      st_error ("Unexpected error with file " +:+ name uploaded_file +:+ ": " +:+ msg)
  end.

Definition consolidate_files (file_list : list UploadedFile) (file_type : string)
  : M DataFrame :=
  set_consolidated_data DataFrame_new ;;
  for_each file_list (fun uploaded_file =>
    try_except
      (if decide (file_type = "csv") then
         df ← pd_read_csv uploaded_file;
         let df := setitem df "Filename" (SStr (name uploaded_file)) in
         consolidated_data ← get_consolidated_data;
         set_consolidated_data (concat consolidated_data df)
       else if decide (file_type = "excel") then
         df ← pd_read_excel uploaded_file (SheetIndex 0);
         let df := setitem df "Filename" (SStr (name uploaded_file)) in
         consolidated_data ← get_consolidated_data;
         set_consolidated_data (concat consolidated_data df)
       else mret ())
      (files_handler uploaded_file)) ;;
  get_consolidated_data.

(** The two handlers of [consolidate_sheets]. *)
Definition sheets_handler (uploaded_file : UploadedFile) (e : exn) : M unit :=
  match e with
  | ValueError msg =>
      st_error ("Error processing sheet in " +:+ name uploaded_file +:+ ": " +:+ msg)
  | Exception msg =>
      st_error ("Unexpected error with file " +:+ name uploaded_file +:+ ": " +:+ msg)
  end.

Definition consolidate_sheets (file_list : list UploadedFile)
           (selected : gmap string (list string)) : M DataFrame :=
  set_consolidated_data DataFrame_new ;;
  for_each file_list (fun uploaded_file =>
    try_except
      (match selected !! name uploaded_file with
       | Some sheets =>
           for_each sheets (fun sheet =>
             sheet_df ← pd_read_excel uploaded_file (SheetName sheet);
             let sheet_df := setitem sheet_df "Filename" (SStr (name uploaded_file)) in
             let sheet_df := setitem sheet_df "Sheet Name" (SStr sheet) in
             consolidated_data ← get_consolidated_data;
             set_consolidated_data (concat consolidated_data sheet_df))
       | None => mret ()
       end)
      (sheets_handler uploaded_file)) ;;
  get_consolidated_data.

End Consolidation.

(** ** Export and the display of the result *)

(** The bounds of the xlsx format on a sheet, as [to_excel] has them. *)
Definition max_rows : N := 1048576.
Definition max_cols : N := 16384.

(** A table of at most [max_rows] rows and [max_cols] columns. *)
Definition fits_sheet (df : DataFrame) : Prop :=
  (N.of_nat (nrows df) ≤ max_rows)%N ∧ (N.of_nat (length (columns df)) ≤ max_cols)%N.

#[export] Instance fits_sheet_dec df : Decision (fits_sheet df).
Proof. unfold fits_sheet. apply _. Defined.

(** The rows that the writer puts on the sheet for a table that fits: the
    labels, then the rows of the table, each cell under its label and no
    cell for a row number; no row for a table without columns. The sheet
    ends after [max_rows] rows, so that the last row of a table of
    [max_rows] rows, which comes after the labels, falls off it. *)
Definition sheet_rows (df : DataFrame) : worksheet :=
  if decide (columns df = []) then []
  else map (fun c => Some (SStr c)) (columns df) ::
       (if decide (N.of_nat (nrows df) = max_rows)
        then take (nrows df - 1) (data df)
        else data df).

(** [df.to_excel(writer, sheet_name=..., index=False)] on a writer that
    holds [wb]: a table that does not fit a sheet is refused with a
    [ValueError], for any other its sheet is added. *)
Definition to_excel (df : DataFrame) (wb : workbook) (sheet_name : string)
  : exn + workbook :=
  if decide (fits_sheet df) then inr (wb ++ [(sheet_name, sheet_rows df)])
  else inl (ValueError ("This sheet is too large! Your sheet size is: " +:+
                        pretty (nrows df) +:+ ", " +:+
                        pretty (length (columns df)) +:+
                        " Max sheet size is: 1048576, 16384")).

(** The export of both branches: an [ExcelWriter] over an in-memory buffer,
    one [to_excel(writer, index=False)] on it with the default sheet name,
    and the buffer's value once the writer is closed; what [to_excel]
    raises goes up. *)
Definition export (consolidated_data : DataFrame) : exn + workbook :=
  to_excel consolidated_data [] "Sheet1".

(** The widgets that hand back what the user entered. *)
Class Widgets := {
  (** [st.multiselect(label, options=..., default=...)]: the options that
      the user left selected. *)
  multiselect : string → list string → list string → list string;
  (** [st.text_input(label, value=...)]: what the user left in the field. *)
  text_input : string → string → string
}.

Section Display.

Context {widgets : Widgets}.

(** What both branches do with the consolidated table; [heading] is the
    line written above the preview. *)
Definition show_result (heading : string) (consolidated_data : DataFrame) : M unit :=
  if negb (empty consolidated_data) then
    st_write heading ;;
    st_dataframe consolidated_data ;;
    let output_file_name :=
      text_input "Enter name for the consolidated output file (without extension)"
                 "consolidated" in
    output ← call (export consolidated_data);
    st_download_button "Download Consolidated File" output
                       (output_file_name +:+ ".xlsx")
  else
    st_warning "No data to display after consolidation.".

End Display.

(** ** Sheet selection *)

Definition lower_ascii (a : ascii) : ascii :=
  let n := nat_of_ascii a in
  if ((65 <=? n) && (n <=? 90))%nat then ascii_of_nat (n + 32) else a.

(** [s.lower()], on ASCII text. *)
Fixpoint lower (s : string) : string :=
  match s with
  | EmptyString => EmptyString
  | String a s' => String (lower_ascii a) (lower s')
  end.

(** [needle in hay] on strings: [needle] occurs in [hay]. *)
Fixpoint contains (needle hay : string) : bool :=
  String.prefix needle hay ||
  match hay with
  | EmptyString => false
  | String _ hay' => contains needle hay'
  end.

(** [[sheet for sheet in sheet_names if search_term.lower() in sheet.lower()]] *)
Definition filtered_sheets (search_term : string) (sheet_names : list string)
  : list string :=
  filter (fun sheet => contains (lower search_term) (lower sheet)) sheet_names.

(** One turn of the loop over [global_matching_sheets]: the entry of
    [filename] is created empty when there is none, and [sheet_name] is
    appended to it. *)
Definition auto_select_step (selected : gmap string (list string))
           (match_ : string * string) : gmap string (list string) :=
  let '(filename, sheet_name) := match_ in
  let selected :=
    if decide (is_Some (selected !! filename)) then selected
    else <[filename := []]> selected in
  <[filename := (selected !!! filename) ++ [sheet_name]]> selected.

(** The merge of the matches of the search into the selection: nothing
    when the search term is empty or nothing matched. *)
Definition auto_select (search_term : string) (matches : list (string * string))
           (selected : gmap string (list string)) : gmap string (list string) :=
  if bool_decide (search_term ≠ "") && bool_decide (matches ≠ []) then
    foldl auto_select_step selected matches
  else selected.

(** [{file.name: selected_sheets[file.name] for file in uploaded_files
      if selected_sheets.get(file.name)}] *)
Definition mapped_sheets (uploaded_files : list UploadedFile)
           (selected : gmap string (list string)) : gmap string (list string) :=
  foldl (fun mapped file =>
           match selected !! name file with
           | Some (sheet :: sheets) => <[name file := sheet :: sheets]> mapped
           | _ => mapped
           end) ∅ uploaded_files.

Section Pages.

Context {readers : Readers} {widgets : Widgets}.

(** The branch "Consolidate data from files". *)
Definition file_mode_branch (uploaded_files : list UploadedFile) (file_type : string)
  : M unit :=
  consolidated_data ← consolidate_files uploaded_files file_type;
  show_result "Consolidated Data from Files:" consolidated_data.

(** The body of the loop over the uploaded files in the sheet branch. *)
Definition scan_file (search_term : string) (file : UploadedFile) : M unit :=
  sheet_names ← call (ExcelFile_sheet_names file);
  selected ← get_selected_sheets;
  set_selected_sheets
    (<[name file :=
         multiselect ("Select sheets in " +:+ name file +:+ " manually:")
                     sheet_names (default [] (selected !! name file))]> selected) ;;
  for_each (filtered_sheets search_term sheet_names) (fun sheet =>
    matches ← get_global_matching_sheets;
    set_global_matching_sheets (matches ++ [(name file, sheet)])).

(** The statement that selects the matches of the search:
    [if search_term and global_matching_sheets: ...]. *)
Definition select_matches (search_term : string) : M unit :=
  matches ← get_global_matching_sheets;
  if bool_decide (search_term ≠ "") && bool_decide (matches ≠ []) then
    st_write ("Automatically consolidating sheets matching '" +:+ search_term
              +:+ "' across all files:") ;;
    for_each matches (fun match_ =>
      selected ← get_selected_sheets;
      set_selected_sheets (auto_select_step selected match_))
  else mret ().

(** The branch "Consolidate data from sheets". The selection lives in the
    session state: it is the store's [selected_sheets] before and after. *)
Definition sheet_mode_branch (uploaded_files : list UploadedFile)
           (search_term : string) : M unit :=
  set_global_matching_sheets [] ;;
  for_each uploaded_files (scan_file search_term) ;;
  select_matches search_term ;;
  selected ← get_selected_sheets;
  let mapped := mapped_sheets uploaded_files selected in
  consolidated_data ← consolidate_sheets uploaded_files mapped;
  show_result "Consolidated Data from Sheets:" consolidated_data.

End Pages.

(** ** A small world to run the script in *)

(** Concrete readers, files and users for the examples: a reader of plain
    comma-separated text in place of [pd.read_csv] and a table of workbooks
    in place of the xlsx decoder. *)
Module Example.

Definition nl : string := String "010" EmptyString.

Fixpoint split_on (sep : ascii) (s : string) : list string :=
  match s with
  | EmptyString => [EmptyString]
  | String a s' =>
      if decide (a = sep) then EmptyString :: split_on sep s'
      else match split_on sep s' with
           | w :: ws => String a w :: ws
           | [] => [String a EmptyString]
           end
  end.

Definition parse_cell (s : string) : cell :=
  if decide (s = "") then None else Some (SStr s).

(** The first line holds the labels; a shorter line is filled with nulls; no
    line at all, or a line longer than the first, is a [ValueError]. *)
Definition parse_csv (file : UploadedFile) : exn + DataFrame :=
  match filter (fun line => line ≠ "") (split_on "010" (content file)) with
  | [] => inl (ValueError "No columns to parse from file")
  | header :: lines =>
      let cols := split_on "," header in
      let rows := map (fun line => map parse_cell (split_on "," line)) lines in
      if decide (Forall (fun row => length row ≤ length cols) rows) then
        inr (mkDataFrame cols
               (map (fun row => row ++ replicate (length cols - length row) None) rows))
      else inl (ValueError "Error tokenizing data")
  end.

Definition f1 : UploadedFile :=
  mkUploadedFile "f1.csv" ("X,Y" +:+ nl +:+ "a,b" +:+ nl +:+ "c,d" +:+ nl).
Definition f2 : UploadedFile :=
  mkUploadedFile "f2.csv" ("X,Z" +:+ nl +:+ "e,f" +:+ nl).
(** Same labels as [f1]. *)
Definition f3 : UploadedFile :=
  mkUploadedFile "f3.csv" ("X,Y" +:+ nl +:+ "g,h" +:+ nl).
(** A file with a column that is already called [Filename]. *)
Definition tagged : UploadedFile :=
  mkUploadedFile "tagged.csv" ("Filename,X" +:+ nl +:+ "old.csv,a" +:+ nl).
(** No bytes: nothing to parse. *)
Definition corrupt : UploadedFile := mkUploadedFile "corrupt.csv" "".

(** The workbooks, by their bytes: the sheets of each in order. *)
Definition workbooks : list (string * list (string * DataFrame)) :=
  [("<book>", [("Sales", mkDataFrame ["X"] [[Some (SStr "a")]; [Some (SStr "b")]]);
               ("Costs", mkDataFrame ["X"] [[Some (SStr "c")]])]);
   ("<other>", [("Sales", mkDataFrame ["X"] [[Some (SStr "e")]])]);
   ("<tagged>", [("Data", mkDataFrame ["Sheet Name"; "Filename"; "X"]
                            [[Some (SStr "old sheet"); Some (SStr "old.xlsx");
                              Some (SStr "a")]])])].

Fixpoint lookup_assoc {A} (k : string) (l : list (string * A)) : option A :=
  match l with
  | [] => None
  | (k', v) :: l' => if decide (k' = k) then Some v else lookup_assoc k l'
  end.

Definition book : UploadedFile := mkUploadedFile "book.xlsx" "<book>".
Definition other : UploadedFile := mkUploadedFile "other.xlsx" "<other>".
Definition tagged_book : UploadedFile := mkUploadedFile "tagged.xlsx" "<tagged>".

(** Bytes that are no workbook are not a [ValueError]; a sheet that the
    workbook does not have is one. *)
Definition open_sheet (file : UploadedFile) (sheet : sheet_ref) : exn + DataFrame :=
  match lookup_assoc (content file) workbooks with
  | None => inl (Exception "File is not a zip file")
  | Some sheets =>
      match sheet with
      | SheetIndex i =>
          match sheets !! i with
          | Some (_, df) => inr df
          | None => inl (ValueError "Worksheet index out of range")
          end
      | SheetName s =>
          match lookup_assoc s sheets with
          | Some df => inr df
          | None => inl (ValueError ("Worksheet named '" +:+ s +:+ "' not found"))
          end
      end
  end.

Definition list_sheets (file : UploadedFile) : exn + list string :=
  match lookup_assoc (content file) workbooks with
  | None => inl (Exception "File is not a zip file")
  | Some sheets => inr (map fst sheets)
  end.

Definition readers : Readers :=
  {| read_csv := parse_csv;
     read_excel := open_sheet;
     ExcelFile_sheet_names := list_sheets |}.

(** A user who selects every sheet offered and one who keeps what is
    selected already; both leave the file name as proposed. *)
Definition picks_all : Widgets :=
  {| multiselect := fun label options default => options;
     text_input := fun label value => value |}.
Definition picks_none : Widgets :=
  {| multiselect := fun label options default => default;
     text_input := fun label value => value |}.

(** A run from a fresh session: the result and the trace. *)
Definition run {A} (m : M A) : (exn + A) * list event :=
  let '(r, s) := m (store_init ∅) in (r, trace s).

End Example.

(** ** What a run is compared with *)

(** A table as the pandas readers return them: distinct labels (a reader
    renames a repeated label) and aligned rows. *)
Definition well_formed (df : DataFrame) : Prop :=
  NoDup (columns df) ∧ aligned df.

#[export] Instance well_formed_dec df : Decision (well_formed df).
Proof. unfold well_formed. apply _. Defined.

(** Decidable facts about concrete tables are settled by evaluation. *)
Ltac by_evaluation := apply (bool_decide_unpack _); vm_compute; exact I.

(** The number of occurrences of [x] in [l]. *)
Definition count {A} `{EqDecision A} (x : A) (l : list A) : nat :=
  length (filter (fun y => y = x) l).

(** What one turn of the loop of [select_matches] does to the store. *)
Definition select_step (s : store) (match_ : string * string) : store :=
  mkStore (consolidated_data s) (auto_select_step (selected_sheets s) match_)
          (global_matching_sheets s) (trace s).

(** The sheets of [file] among the matches of the search, in order. *)
Definition matched_sheets (file : string) (matches : list (string * string))
  : list string :=
  (filter (fun match_ => match_.1 = file) matches).*2.

Section Outcomes.

Context {readers : Readers}.

(** What [consolidate_files] asks of the readers for one file: nothing when
    the kind is neither ['csv'] nor ['excel']. *)
Definition load (file_type : string) (file : UploadedFile) : option (exn + DataFrame) :=
  if decide (file_type = "csv") then Some (read_csv file)
  else if decide (file_type = "excel") then Some (read_excel file (SheetIndex 0))
  else None.

Definition load_event (file_type : string) (file : UploadedFile) : event :=
  if decide (file_type = "csv") then ReadCsv (name file)
  else ReadExcel (name file) (SheetIndex 0).

(** The text that the handlers of [consolidate_files] show. *)
Definition files_message (file : UploadedFile) (e : exn) : string :=
  match e with
  | ValueError msg => "Error processing " +:+ name file +:+ ": " +:+ msg
  | Exception msg => "Unexpected error with file " +:+ name file +:+ ": " +:+ msg
  end.

(** The tagged table that a file contributes, if it loads. *)
Definition produced (file_type : string) (file : UploadedFile) : option DataFrame :=
  match load file_type file with
  | Some (inr df) => Some (setitem df "Filename" (SStr (name file)))
  | _ => None
  end.

(** The failure message that a file contributes, if it does not load. *)
Definition failure (file_type : string) (file : UploadedFile) : option string :=
  match load file_type file with
  | Some (inl e) => Some (files_message file e)
  | _ => None
  end.

(** The events of one turn of the loop of [consolidate_files]. *)
Definition file_events (file_type : string) (file : UploadedFile) : list event :=
  match load file_type file with
  | Some (inr _) => [load_event file_type file]
  | Some (inl e) => [load_event file_type file; Error (files_message file e)]
  | None => []
  end.

(** The number of rows that [pd.read_csv] finds in a file. *)
Definition csv_rows (file : UploadedFile) : nat :=
  match read_csv file with
  | inr df => nrows df
  | inl _ => 0
  end.

(** The cells that [pd.read_csv] finds in a file under the label [c]. *)
Definition csv_column (c : string) (file : UploadedFile) : list cell :=
  match read_csv file with
  | inr df => column df c
  | inl _ => []
  end.

(** The text that the handlers of [consolidate_sheets] show. *)
Definition sheets_message (file : UploadedFile) (e : exn) : string :=
  match e with
  | ValueError msg => "Error processing sheet in " +:+ name file +:+ ": " +:+ msg
  | Exception msg => "Unexpected error with file " +:+ name file +:+ ": " +:+ msg
  end.

(** A sheet's table with both provenance columns. *)
Definition tag_sheet (file : UploadedFile) (sheet : string) (df : DataFrame)
  : DataFrame :=
  setitem (setitem df "Filename" (SStr (name file))) "Sheet Name" (SStr sheet).

(** The sheets of [sheets] that load before the first one that does not,
    tagged, and the exception of that one. *)
Fixpoint loaded_sheets (file : UploadedFile) (sheets : list string)
  : list DataFrame * option exn :=
  match sheets with
  | [] => ([], None)
  | sheet :: rest =>
      match read_excel file (SheetName sheet) with
      | inr df =>
          let '(tables, e) := loaded_sheets file rest in
          (tag_sheet file sheet df :: tables, e)
      | inl e => ([], Some e)
      end
  end.

(** The sheets of [sheets] that [read_excel] is asked for: up to and
    including the first that does not load. *)
Fixpoint attempted_sheets (file : UploadedFile) (sheets : list string) : list string :=
  match sheets with
  | [] => []
  | sheet :: rest =>
      match read_excel file (SheetName sheet) with
      | inr _ => sheet :: attempted_sheets file rest
      | inl _ => [sheet]
      end
  end.

(** The events of one turn of the outer loop of [consolidate_sheets]. *)
Definition sheet_events (selected : gmap string (list string)) (file : UploadedFile)
  : list event :=
  let sheets := default [] (selected !! name file) in
  map (fun sheet => ReadExcel (name file) (SheetName sheet))
      (attempted_sheets file sheets) ++
  match (loaded_sheets file sheets).2 with
  | Some e => [Error (sheets_message file e)]
  | None => []
  end.

(** The labels of a table with the labels [schema] once it is tagged. *)
Definition tagged_schema (schema : list string) : list string :=
  if decide ("Filename" ∈ schema) then schema else schema ++ ["Filename"].

(** What one turn of the loop of [consolidate_files] does to the store. *)
Definition files_step (file_type : string) (s : store) (file : UploadedFile) : store :=
  mkStore (match produced file_type file with
           | Some table => concat (consolidated_data s) table
           | None => consolidated_data s
           end)
          (selected_sheets s) (global_matching_sheets s)
          (trace s ++ file_events file_type file).

(** What loading one selected sheet does: the read is recorded, and either
    the tagged table is accumulated or the exception of the reader goes up. *)
Definition sheet_step (file : UploadedFile) (s : store) (sheet : string)
  : (exn + ()) * store :=
  let t := trace s ++ [ReadExcel (name file) (SheetName sheet)] in
  match read_excel file (SheetName sheet) with
  | inr df =>
      (inr (), mkStore (concat (consolidated_data s) (tag_sheet file sheet df))
                       (selected_sheets s) (global_matching_sheets s) t)
  | inl e =>
      (inl e, mkStore (consolidated_data s) (selected_sheets s)
                      (global_matching_sheets s) t)
  end.

(** What one turn of the outer loop of [consolidate_sheets] does. *)
Definition sheets_step (selected : gmap string (list string)) (s : store)
           (file : UploadedFile) : store :=
  mkStore (foldl concat (consolidated_data s)
                 (loaded_sheets file (default [] (selected !! name file))).1)
          (selected_sheets s) (global_matching_sheets s)
          (trace s ++ sheet_events selected file).

(** The tagged tables of the sheets of [sheets] that load. *)
Definition tagged_sheets (file : UploadedFile) (sheets : list string)
  : list DataFrame :=
  omap (fun sheet =>
          match read_excel file (SheetName sheet) with
          | inr df => Some (tag_sheet file sheet df)
          | inl _ => None
          end) sheets.

(** The tables that [consolidate_sheets] accumulates for the files [l]. *)
Definition sheet_tables (selected : gmap string (list string))
           (l : list UploadedFile) : list DataFrame :=
  l ≫= fun file => (loaded_sheets file (default [] (selected !! name file))).1.

End Outcomes.

(** ** The users collection *)

(** A document of [users_collection]: the two fields that the script
    writes and queries. *)
Record document := mkDocument {
  doc_email : string;
  doc_password : string
}.

#[export] Instance document_eq_dec : EqDecision document.
Proof. solve_decision. Defined.

(** What a function of the script puts on the page when it is done. *)
Inductive notice :=
| StSuccess (body : string)
| StError (body : string).

(** The query [{"email": email}]. *)
Definition by_email (email : string) (d : document) : bool :=
  bool_decide (doc_email d = email).

(** The query [{"email": email, "password": password}]. *)
Definition by_credentials (email password : string) (d : document) : bool :=
  bool_decide (doc_email d = email) && bool_decide (doc_password d = password).

(** [collection.find_one(query)]: the first document that matches. *)
Fixpoint find_one (query : document → bool) (collection : list document)
  : option document :=
  match collection with
  | [] => None
  | d :: rest => if query d then Some d else find_one query rest
  end.

(** [collection.insert_one(d)] *)
Definition insert_one (d : document) (collection : list document) : list document :=
  collection ++ [d].

(** [collection.update_one(query, {"$set": {"password": new_password}})]:
    the first document that matches gets the password. *)
Fixpoint update_one (query : document → bool) (new_password : string)
         (collection : list document) : list document :=
  match collection with
  | [] => []
  | d :: rest =>
      if query d then mkDocument (doc_email d) new_password :: rest
      else d :: update_one query new_password rest
  end.

Definition authenticate_user (users : list document) (email password : string)
  : bool :=
  match find_one (by_credentials email password) users with
  | Some _ => true
  | None => false
  end.

Definition register_user (users : list document) (email password : string)
  : list document * notice :=
  match find_one (by_email email) users with
  | Some _ => (users, StError "User already exists.")
  | None => (insert_one (mkDocument email password) users,
             StSuccess "Registration successful.")
  end.

Definition change_password (users : list document)
           (email old_password new_password : string) : list document * notice :=
  match find_one (by_credentials email old_password) users with
  | Some _ => (update_one (by_email email) new_password users,
               StSuccess "Password changed successfully.")
  | None => (users, StError "Invalid email or old password.")
  end.

(** The emails of a collection, one per document. *)
Definition emails (users : list document) : list string := doc_email <$> users.

(** A collection with two accounts, for the examples. *)
Definition two_users : list document :=
  [mkDocument "ann@example.org" "tulip"; mkDocument "bob@example.org" "maple"].

(** ** A table that is too wide for a sheet *)



(** ** Text *)

(** A string of ASCII characters: on these [lower] is what [str.lower()]
    is, and [contains] what [in] is. *)
Fixpoint ascii_text (s : string) : bool :=
  match s with
  | EmptyString => true
  | String a s' => (nat_of_ascii a <? 128)%nat && ascii_text s'
  end.

(** A cell that is text or null, and a table of such cells: accumulation
    hands these on as they are, whatever the other tables hold. *)
Definition text_cell (x : cell) : bool :=
  match x with
  | Some (SInt _) => false
  | _ => true
  end.

Definition text_table (df : DataFrame) : Prop :=
  Forall (Forall (fun x => text_cell x)) (data df).

#[export] Instance text_table_dec df : Decision (text_table df).
Proof. unfold text_table. apply _. Defined.

(** ** The session and what the branches work on *)

(** [reset_selections()]: the dictionary of the session is cleared. *)
Definition reset_selections : M unit := set_selected_sheets ∅.

Section Contributions.

Context {readers : Readers} {widgets : Widgets}.

(** The number of rows that a file contributes to [consolidate_files]. *)
Definition file_rows (file_type : string) (file : UploadedFile) : nat :=
  match load file_type file with
  | Some (inr df) => nrows df
  | _ => 0
  end.

(** The cells that a file contributes under the label [c]: the name of the
    file under [Filename], its own cells under a label it has, nulls under
    any other. *)
Definition file_cells (file_type : string) (c : string) (file : UploadedFile)
  : list cell :=
  match load file_type file with
  | Some (inr df) =>
      if decide (c = "Filename") then replicate (nrows df) (Some (SStr (name file)))
      else if decide (c ∈ columns df) then column df c
      else replicate (nrows df) None
  | _ => []
  end.

(** The sheets of [sheets] that load before the first one that does not,
    each with the number of its rows. *)
Fixpoint loaded_rows (file : UploadedFile) (sheets : list string)
  : list (string * nat) :=
  match sheets with
  | [] => []
  | sheet :: rest =>
      match read_excel file (SheetName sheet) with
      | inr df => (sheet, nrows df) :: loaded_rows file rest
      | inl _ => []
      end
  end.

(** The sheet names of a workbook; none for bytes that are no workbook. *)
Definition sheet_names_of (file : UploadedFile) : list string :=
  match ExcelFile_sheet_names file with
  | inr sheet_names => sheet_names
  | inl _ => []
  end.

(** The selection after the multiselects of the files [l], from the
    selection [session] that the session holds. *)
Definition manual_selection (l : list UploadedFile)
           (session : gmap string (list string)) : gmap string (list string) :=
  foldl (fun selected file =>
           <[name file :=
               multiselect ("Select sheets in " +:+ name file +:+ " manually:")
                           (sheet_names_of file)
                           (default [] (selected !! name file))]> selected)
        session l.

(** The pairs of file and sheet that the search term matches in [l]. *)
Definition search_matches (search_term : string) (l : list UploadedFile)
  : list (string * string) :=
  l ≫= fun file =>
    (fun sheet => (name file, sheet)) <$>
    filtered_sheets search_term (sheet_names_of file).

End Contributions.

(** ** Facts about tables *)

Section TableFacts.

Implicit Types (df a b : DataFrame) (cols : list string) (row : list cell).

Lemma get_cell_set_cell cols row c v :
  c ∈ cols → length row = length cols →
  get_cell cols (set_cell cols row c v) c = v.
Proof.
  revert row. induction cols as [|k cols IH]; intros [|x row] Hin Hlen;
    simplify_eq/=; try by inversion Hin.
  destruct (decide (k = c)) as [->|Hne]; simpl; [done|].
  apply IH; [|done]. apply elem_of_cons in Hin as [?|?]; [congruence|done].
Qed.

Lemma get_cell_set_cell_ne cols row c c' v :
  c ≠ c' → get_cell cols (set_cell cols row c' v) c = get_cell cols row c.
Proof.
  intros Hne. revert row. induction cols as [|k cols IH]; intros [|x row]; try done.
  simpl. destruct (decide (k = c')) as [->|?]; simpl.
  - by rewrite !decide_False by done.
  - destruct (decide (k = c)); [done|apply IH].
Qed.

Lemma length_set_cell cols row c v : length (set_cell cols row c v) = length row.
Proof.
  revert row. induction cols as [|k cols IH]; intros [|x row]; try done.
  simpl. destruct (decide (k = c)); simpl; [done|by rewrite IH].
Qed.

Lemma get_cell_app_new cols row c v :
  c ∉ cols → length row = length cols →
  get_cell (cols ++ [c]) (row ++ [v]) c = v.
Proof.
  revert row. induction cols as [|k cols IH]; intros [|x row] Hin Hlen;
    simplify_eq/=.
  - by rewrite decide_True.
  - apply not_elem_of_cons in Hin as [? ?].
    rewrite decide_False by done. by apply IH.
Qed.

Lemma get_cell_app_old cols row c c' v :
  c ≠ c' → length row = length cols →
  get_cell (cols ++ [c']) (row ++ [v]) c = get_cell cols row c.
Proof.
  intros Hne. revert row. induction cols as [|k cols IH]; intros [|x row] Hlen;
    simplify_eq/=.
  - by rewrite decide_False.
  - destruct (decide (k = c)); [done|by apply IH].
Qed.

Lemma get_cell_reindex from to row c :
  c ∈ to → get_cell to (reindex from to row) c = get_cell from row c.
Proof.
  unfold reindex. induction to as [|k to IH]; intros Hin; [by inversion Hin|].
  simpl. destruct (decide (k = c)) as [->|Hne]; [done|].
  apply IH. apply elem_of_cons in Hin as [?|?]; [congruence|done].
Qed.

Lemma reindex_id cols row :
  NoDup cols → length row = length cols → reindex cols cols row = row.
Proof.
  unfold reindex. revert row.
  induction cols as [|k cols IH]; intros [|x row] Hnd Hlen; simplify_eq/=; [done|].
  apply NoDup_cons in Hnd as [Hk Hnd]. rewrite decide_True by done. f_equal.
  transitivity (map (get_cell cols row) cols); [|by apply IH].
  apply map_ext_in. intros c Hc. apply list_elem_of_In in Hc. simpl.
  rewrite decide_False; [done|]. by intros ->.
Qed.

Lemma columns_setitem_old df c v :
  c ∈ columns df → columns (setitem df c v) = columns df.
Proof. intros Hin. unfold setitem. by rewrite decide_True. Qed.

Lemma elem_of_columns_setitem df c v : c ∈ columns (setitem df c v).
Proof.
  unfold setitem. case_decide; simpl; [done|].
  apply elem_of_app. right. by apply list_elem_of_singleton.
Qed.

Lemma elem_of_columns_setitem_mono df c c' v :
  c ∈ columns df → c ∈ columns (setitem df c' v).
Proof.
  intros Hin. unfold setitem. case_decide; simpl; [done|].
  apply elem_of_app. by left.
Qed.

Lemma nrows_setitem df c v : nrows (setitem df c v) = nrows df.
Proof. unfold setitem, nrows. case_decide; simpl; by rewrite length_map. Qed.

Lemma aligned_setitem df c v : aligned df → aligned (setitem df c v).
Proof.
  unfold aligned, setitem. intros Hal. case_decide; simpl.
  - apply Forall_map. eapply Forall_impl; [exact Hal|].
    intros row Hrow. simpl. by rewrite length_set_cell.
  - apply Forall_map. eapply Forall_impl; [exact Hal|].
    intros row Hrow. cbv beta in *. rewrite !length_app. simpl. lia.
Qed.

Lemma NoDup_columns_setitem df c v :
  NoDup (columns df) → NoDup (columns (setitem df c v)).
Proof.
  intros Hnd. unfold setitem. case_decide; simpl; [done|].
  apply NoDup_app. split_and!; [done| |apply NoDup_singleton].
  intros x Hx Hx'. apply list_elem_of_singleton in Hx'. by subst.
Qed.

Lemma well_formed_setitem df c v : well_formed df → well_formed (setitem df c v).
Proof.
  intros [? ?]. split; [by apply NoDup_columns_setitem|by apply aligned_setitem].
Qed.

(** After [df[c] = v] every cell of the column [c] is [v]. *)
Lemma column_setitem df c v :
  aligned df → column (setitem df c v) c = replicate (nrows df) (Some v).
Proof.
  unfold aligned, column, setitem, nrows. intros Hal.
  case_decide as Hin; simpl; rewrite map_map.
  - induction Hal as [|row rows Hrow _ IH]; simpl; [done|].
    by rewrite get_cell_set_cell, IH.
  - induction Hal as [|row rows Hrow _ IH]; simpl; [done|].
    by rewrite get_cell_app_new, IH.
Qed.

(** [df[c'] = v] leaves the other columns as they are. *)
Lemma column_setitem_ne df c c' v :
  c ≠ c' → aligned df → column (setitem df c' v) c = column df c.
Proof.
  unfold aligned, column, setitem. intros Hne Hal.
  case_decide as Hin; simpl; rewrite map_map.
  - apply map_ext. intros row. by apply get_cell_set_cell_ne.
  - induction Hal as [|row rows Hrow _ IH]; simpl; [done|].
    by rewrite get_cell_app_old, IH.
Qed.

Lemma nrows_concat a b : nrows (concat a b) = nrows a + nrows b.
Proof. unfold concat, nrows. simpl. by rewrite length_app, !length_map. Qed.

Lemma elem_of_columns_concat a b c :
  c ∈ columns (concat a b) ↔ c ∈ columns a ∨ c ∈ columns b.
Proof.
  unfold concat, new_columns. simpl. rewrite elem_of_app, list_elem_of_filter.
  destruct (decide (c ∈ columns a)); tauto.
Qed.

Lemma column_concat a b c :
  c ∈ columns (concat a b) →
  column (concat a b) c = column a c ++ column b c.
Proof.
  intros Hin. unfold column. unfold concat in *. simpl in *.
  rewrite map_app, !map_map. f_equal; apply map_ext; intros row;
    by apply get_cell_reindex.
Qed.

Lemma aligned_concat a b : aligned (concat a b).
Proof.
  unfold aligned, concat. simpl. apply Forall_app.
  split; apply Forall_map, Forall_true; intros row; unfold reindex; simpl;
    by rewrite length_map.
Qed.

Lemma new_columns_nil cols : new_columns [] cols = cols.
Proof.
  unfold new_columns. induction cols as [|c cols IH]; [done|].
  rewrite filter_cons_True; [by rewrite IH|]. apply not_elem_of_nil.
Qed.

Lemma new_columns_subseteq (xs ys : list string) :
  ys ⊆ xs → new_columns xs ys = [].
Proof.
  unfold new_columns. induction ys as [|c ys IH]; intros Hsub; [done|].
  rewrite filter_cons_False.
  - apply IH. intros x Hx. apply Hsub. by apply elem_of_cons; right.
  - intros Hc. apply Hc, Hsub. by apply elem_of_cons; left.
Qed.

Lemma new_columns_self cols : new_columns cols cols = [].
Proof. by apply new_columns_subseteq. Qed.

Lemma NoDup_columns_concat a b :
  NoDup (columns a) → NoDup (columns b) → NoDup (columns (concat a b)).
Proof.
  intros Ha Hb. unfold concat, new_columns. simpl. apply NoDup_app.
  split_and!; [done| |by apply NoDup_filter].
  intros c Hc Hc'. apply list_elem_of_filter in Hc' as [? ?]. done.
Qed.

(** The first table that is accumulated is taken as it is. *)
Lemma concat_new_l df : well_formed df → concat DataFrame_new df = df.
Proof.
  intros [Hnd Hal]. destruct df as [cols rows]. unfold concat. simpl in *.
  rewrite new_columns_nil. f_equal.
  unfold aligned in Hal. simpl in Hal.
  induction Hal as [|row rows Hrow _ IH]; simpl; [done|].
  by rewrite reindex_id, IH.
Qed.

(** A table with the labels of the accumulated one adds no column. *)
Lemma columns_concat_same a b :
  columns b = columns a → columns (concat a b) = columns a.
Proof.
  intros Heq. unfold concat. simpl. by rewrite Heq, new_columns_self, app_nil_r.
Qed.

Lemma nrows_foldl_concat a tables :
  nrows (foldl concat a tables) = nrows a + sum_list (nrows <$> tables).
Proof.
  revert a. induction tables as [|t tables IH]; intros a; csimpl; [lia|].
  rewrite IH, nrows_concat. lia.
Qed.

Lemma column_foldl_concat a tables c :
  Forall (fun t => c ∈ columns t) tables →
  column (foldl concat a tables) c =
  column a c ++ mjoin ((fun t => column t c) <$> tables).
Proof.
  intros Hall. revert a. induction Hall as [|t tables Ht _ IH]; intros a; simpl.
  - by rewrite app_nil_r.
  - rewrite IH, column_concat, <- app_assoc; [done|].
    apply elem_of_columns_concat. by right.
Qed.

Lemma columns_foldl_concat_same a tables :
  Forall (fun t => columns t = columns a) tables →
  columns (foldl concat a tables) = columns a.
Proof.
  revert a. induction tables as [|t tables IH]; intros a Hall; simpl; [done|].
  apply Forall_cons in Hall as [Ht Hall].
  rewrite IH; [by apply columns_concat_same|].
  rewrite columns_concat_same by done. done.
Qed.

End TableFacts.

(** ** Facts about runs *)

Section RunFacts.

Context {readers : Readers}.

(** A loop whose turns all end normally is the fold of what a turn does to
    the store. *)
Lemma for_each_turns {A} (body : A → M unit) (step : store → A → store) l s :
  (∀ x s', body x s' = (inr (), step s' x)) →
  for_each l body s = (inr (), foldl step s l).
Proof.
  intros Hbody. revert s. induction l as [|x l IH]; intros s; [done|].
  simpl. unfold mbind, M_bind. by rewrite Hbody, IH.
Qed.

Lemma foldl_files_step file_type l s :
  foldl (files_step file_type) s l =
  mkStore (foldl concat (consolidated_data s) (omap (produced file_type) l))
          (selected_sheets s) (global_matching_sheets s)
          (trace s ++ (l ≫= file_events file_type)).
Proof.
  revert s. induction l as [|f l IH]; intros s; simpl.
  - rewrite app_nil_r. by destruct s.
  - rewrite IH. unfold files_step. simpl.
    rewrite <- app_assoc. by destruct (produced file_type f).
Qed.

(** The run of [consolidate_files]: the tables of the files that load are
    accumulated in the order of the list, every file that does not load
    leaves its message and nothing else, and the call returns. *)
Lemma consolidate_files_run l file_type s :
  let out := foldl concat DataFrame_new (omap (produced file_type) l) in
  consolidate_files l file_type s =
  (inr out, mkStore out (selected_sheets s) (global_matching_sheets s)
                    (trace s ++ (l ≫= file_events file_type))).
Proof.
  intros out.
  unfold consolidate_files, mbind, M_bind, set_consolidated_data,
    get_consolidated_data.
  simpl. rewrite for_each_turns with (step := files_step file_type).
  - by rewrite foldl_files_step.
  - intros f s'. unfold files_step, produced, file_events, load, load_event,
      try_except, files_handler, st_error, emit.
    repeat case_decide; simpl.
    + destruct (read_csv f) as [[msg|msg]|df]; simpl; by rewrite <- ?app_assoc.
    + destruct (read_excel f (SheetIndex 0)) as [[msg|msg]|df]; simpl;
        by rewrite <- ?app_assoc.
    + rewrite app_nil_r. by destruct s'.
Qed.

Lemma for_each_cons {A} (body : A → M unit) x l s :
  for_each (x :: l) body s =
  match body x s with
  | (inr _, s') => for_each l body s'
  | (inl e, s') => (inl e, s')
  end.
Proof. done. Qed.

(** The inner loop of [consolidate_sheets] on one file: the sheets are
    loaded in order and what is loaded stays accumulated; the loop ends at
    the first sheet that does not load, with its exception. *)
Lemma sheets_loop_run file (body : string → M unit) sheets s :
  (∀ sheet s', body sheet s' = sheet_step file s' sheet) →
  for_each sheets body s =
  (match (loaded_sheets file sheets).2 with
   | Some e => inl e
   | None => inr ()
   end,
   mkStore (foldl concat (consolidated_data s) (loaded_sheets file sheets).1)
           (selected_sheets s) (global_matching_sheets s)
           (trace s ++ map (fun sheet => ReadExcel (name file) (SheetName sheet))
                           (attempted_sheets file sheets))).
Proof.
  intros Hbody. revert s. induction sheets as [|sheet sheets IH]; intros s.
  - simpl. rewrite app_nil_r. by destruct s.
  - rewrite for_each_cons, Hbody. unfold sheet_step. simpl.
    destruct (read_excel file (SheetName sheet)) as [e|df]; simpl; [done|].
    rewrite IH. simpl.
    destruct (loaded_sheets file sheets) as [tables e]. simpl.
    by rewrite <- app_assoc.
Qed.

Lemma foldl_sheets_step selected l s :
  foldl (sheets_step selected) s l =
  mkStore (foldl concat (consolidated_data s) (sheet_tables selected l))
          (selected_sheets s) (global_matching_sheets s)
          (trace s ++ (l ≫= sheet_events selected)).
Proof.
  revert s. induction l as [|f l IH]; intros s; simpl.
  - rewrite app_nil_r. by destruct s.
  - rewrite IH. unfold sheets_step, sheet_tables. simpl.
    by rewrite <- app_assoc, foldl_app.
Qed.

(** The run of [consolidate_sheets]: of every file the selected sheets are
    loaded in order up to the first that fails, which leaves one message;
    the call returns. *)
Lemma consolidate_sheets_run l selected s :
  let out := foldl concat DataFrame_new (sheet_tables selected l) in
  consolidate_sheets l selected s =
  (inr out, mkStore out (selected_sheets s) (global_matching_sheets s)
                    (trace s ++ (l ≫= sheet_events selected))).
Proof.
  intros out. unfold consolidate_sheets.
  unfold mbind at 1 2, M_bind at 1 2.
  unfold set_consolidated_data at 1, get_consolidated_data at 1.
  rewrite for_each_turns with (step := sheets_step selected).
  - by rewrite foldl_sheets_step.
  - intros f s'. unfold try_except, sheets_step, sheet_events.
    destruct (selected !! name f) as [sheets|]; simpl.
    + rewrite (sheets_loop_run f).
      2:{ intros sheet s''. unfold sheet_step, tag_sheet, mbind, M_bind,
            pd_read_excel, emit, call, get_consolidated_data,
            set_consolidated_data. simpl.
          by destruct (read_excel f (SheetName sheet)). }
      destruct (loaded_sheets f sheets) as [tables [[msg|msg]|]]; simpl;
        unfold st_error, emit; simpl; by rewrite <- ?app_assoc, ?app_nil_r.
    + rewrite app_nil_r. by destruct s'.
Qed.

End RunFacts.

(** ** Consolidation of files *)

Section Files.

Context {readers : Readers}.

Lemma produced_csv file :
  produced "csv" file =
  match read_csv file with
  | inr df => Some (setitem df "Filename" (SStr (name file)))
  | inl _ => None
  end.
Proof. unfold produced, load. by destruct (read_csv file). Qed.

Lemma produced_has_Filename file_type l :
  Forall (fun t => "Filename" ∈ columns t) (omap (produced file_type) l).
Proof.
  induction l as [|f l IH]; simpl; [done|].
  unfold produced at 1. destruct (load file_type f) as [[e|df]|]; try done.
  constructor; [apply elem_of_columns_setitem|done].
Qed.

Lemma csv_tables_of_valid schema l :
  Forall (fun file => ∃ df, read_csv file = inr df ∧ aligned df ∧
                            columns df = schema) l →
  let tables := omap (produced "csv") l in
  sum_list (nrows <$> tables) = sum_list (csv_rows <$> l) ∧
  mjoin ((fun t => column t "Filename") <$> tables) =
    l ≫= (fun file => replicate (csv_rows file) (Some (SStr (name file)))) ∧
  Forall (fun t => columns t = tagged_schema schema) tables ∧
  length tables = length l ∧
  ∀ c, c ≠ "Filename" →
       mjoin ((fun t => column t c) <$> tables) = l ≫= csv_column c.
Proof.
  induction 1 as [|f l (df & Hread & Hal & Hcols) _ IH]; [done|].
  destruct IH as (IH1 & IH2 & IH3 & IH4 & IH5). cbn zeta in *.
  simpl. rewrite produced_csv. unfold csv_rows at 1 3. rewrite Hread.
  csimpl. rewrite nrows_setitem, column_setitem, IH1, IH2, IH4 by done.
  split_and!; try done.
  - constructor; [|done].
    unfold tagged_schema, setitem. rewrite Hcols. by case_decide.
  - intros c Hc. rewrite column_setitem_ne, IH5 by done.
    unfold csv_column at 2. by rewrite Hread.
Qed.

(** C1. For every non-empty list of CSV files that [read_csv] parses into
    tables with the same labels, [consolidate_files] with kind ['csv']
    returns a table that has as many rows as the files have together. Its
    rows are the rows of the files in the order of the list: every other
    column holds the cells of the files under its label, one file after the
    other, and the [Filename] column holds next to them the name of the file
    each row comes from. Its labels are those of the files and [Filename]. *)
Theorem consolidate_files_csv_row_count_and_provenance
    (file_list : list UploadedFile) (schema : list string) (s : store) :
  file_list ≠ [] →
  Forall (fun file => ∃ df, read_csv file = inr df ∧ aligned df ∧
                            columns df = schema) file_list →
  ∃ out s',
    consolidate_files file_list "csv" s = (inr out, s') ∧
    nrows out = sum_list (csv_rows <$> file_list) ∧
    column out "Filename" =
      file_list ≫= (fun file => replicate (csv_rows file) (Some (SStr (name file)))) ∧
    (∀ c, c ∈ schema → c ≠ "Filename" →
          column out c = file_list ≫= csv_column c) ∧
    columns out = tagged_schema schema.
Proof.
  intros Hne Hvalid. rewrite consolidate_files_run. cbn zeta.
  eexists _, _. split; [done|].
  destruct (csv_tables_of_valid _ _ Hvalid)
    as (Hrows & Hnames & Hcols & Hlen & Hcells).
  split_and!.
  - by rewrite nrows_foldl_concat.
  - rewrite column_foldl_concat by apply produced_has_Filename. done.
  - intros c Hc Hc'. rewrite column_foldl_concat; [by rewrite Hcells|].
    eapply Forall_impl; [exact Hcols|]. intros t Ht. simpl. rewrite Ht.
    unfold tagged_schema. case_decide; [done|]. apply elem_of_app. by left.
  - destruct (omap (produced "csv") file_list) as [|t tables] eqn:Htables.
    { destruct file_list; [done|]. simpl in Hlen. lia. }
    apply Forall_cons in Hcols as [Ht Hcols]. simpl.
    assert (columns (concat DataFrame_new t) = tagged_schema schema) as Hfirst.
    { unfold concat. simpl. by rewrite new_columns_nil. }
    rewrite columns_foldl_concat_same; [done|].
    by rewrite Hfirst.
Qed.

End Files.

(** C1 on two files with the labels [X], [Y]. *)
Lemma consolidate_files_csv_row_count_and_provenance_witness :
  ∃ out s',
    consolidate_files (readers := Example.readers) [Example.f1; Example.f3] "csv"
                      (store_init ∅) = (inr out, s') ∧
    nrows out = 3 ∧
    column out "Filename" =
      [Some (SStr "f1.csv"); Some (SStr "f1.csv"); Some (SStr "f3.csv")] ∧
    column out "X" = [Some (SStr "a"); Some (SStr "c"); Some (SStr "g")] ∧
    columns out = ["X"; "Y"; "Filename"].
Proof.
  destruct (consolidate_files_csv_row_count_and_provenance
              (readers := Example.readers) [Example.f1; Example.f3] ["X"; "Y"]
              (store_init ∅))
    as (out & s' & Hrun & Hrows & Hnames & Hcells & Hcols);
    [| |exists out, s'; split_and!;
         [exact Hrun|exact Hrows|exact Hnames| |exact Hcols];
         rewrite (Hcells "X"); [done|by_evaluation|done]].
  - done.
  - repeat (constructor;
              [eexists; split; [reflexivity|];
               split; [by_evaluation|reflexivity]|]).
    constructor.
Defined.

(** ** Failures of single files *)

Section Strings.

Lemma prefix_append (n rest : string) : String.prefix n (n +:+ rest) = true.
Proof.
  induction n as [|a n IH]; simpl; [by destruct rest|].
  destruct (Ascii.ascii_dec a a); [done|congruence].
Qed.

Lemma contains_prefix (n hay : string) :
  String.prefix n hay = true → contains n hay = true.
Proof.
  intros Hp. destruct hay; unfold contains; fold contains; by rewrite Hp.
Qed.

Lemma contains_append_r (n before hay : string) :
  contains n hay = true → contains n (before +:+ hay) = true.
Proof.
  intros Hc. induction before as [|a before IH]; [done|].
  change (String a before +:+ hay) with (String a (before +:+ hay)).
  unfold contains; fold contains. rewrite IH. apply orb_true_r.
Qed.

(** A text names what it is built around. *)
Lemma contains_middle (n before rest : string) :
  contains n (before +:+ n +:+ rest) = true.
Proof. apply contains_append_r, contains_prefix, prefix_append. Qed.

End Strings.

Section FileFailures.

Context {readers : Readers}.

Lemma files_message_names_file file e :
  contains (name file) (files_message file e) = true.
Proof. destruct e; apply contains_middle. Qed.

Lemma errors_app t1 t2 : errors (t1 ++ t2) = errors t1 ++ errors t2.
Proof. unfold errors. apply omap_app. Qed.

Lemma errors_load_event file_type file : errors [load_event file_type file] = [].
Proof. unfold load_event. by case_decide. Qed.

(** Every file that does not load leaves exactly its message. *)
Lemma errors_file_events file_type l :
  errors (l ≫= file_events file_type) = omap (failure file_type) l.
Proof.
  induction l as [|f l IH]; [done|]. csimpl. rewrite errors_app, IH.
  unfold file_events, failure.
  destruct (load file_type f) as [[e|df]|]; try done.
  - change (errors ([load_event file_type f] ++ [Error (files_message f e)]) ++
            omap (failure file_type) l = files_message f e :: omap (failure file_type) l).
    by rewrite errors_app, errors_load_event.
  - by rewrite errors_load_event.
Qed.

(** C2. For a kind that has a reader, a file [valid] that loads into a
    well-formed table and a file [corrupt] on which the reader raises,
    [consolidate_files] on the two, in either order, returns (it does not
    raise) the table of [valid] with its [Filename] column, that is all its
    rows, and shows exactly one new message, which names [corrupt]. *)
Theorem consolidate_files_valid_and_corrupt
    (file_type : string) (valid corrupt : UploadedFile) (df : DataFrame) (e : exn)
    (file_list : list UploadedFile) (s : store) :
  load file_type valid = Some (inr df) →
  well_formed df →
  load file_type corrupt = Some (inl e) →
  file_list = [valid; corrupt] ∨ file_list = [corrupt; valid] →
  ∃ s',
    consolidate_files file_list file_type s =
      (inr (setitem df "Filename" (SStr (name valid))), s') ∧
    errors (trace s') = errors (trace s) ++ [files_message corrupt e] ∧
    contains (name corrupt) (files_message corrupt e) = true.
Proof.
  intros Hvalid Hwf Hcorrupt Hlist. rewrite consolidate_files_run. cbn zeta.
  eexists. split_and!; [| |apply files_message_names_file].
  - f_equal. f_equal.
    assert (omap (produced file_type) file_list =
            [setitem df "Filename" (SStr (name valid))]) as ->.
    { destruct Hlist as [-> | ->]; simpl; unfold produced;
        by rewrite Hvalid, Hcorrupt. }
    simpl. by apply concat_new_l, well_formed_setitem.
  - simpl. rewrite errors_app, errors_file_events. f_equal.
    destruct Hlist as [-> | ->]; simpl; unfold failure;
      by rewrite Hvalid, Hcorrupt.
Qed.

(** A file that does not load changes nothing but the messages: the table
    is the one that the other files give. *)
Lemma consolidate_files_skips_failure
    (file_type : string) (corrupt : UploadedFile) (e : exn)
    (before after : list UploadedFile) (s : store) :
  load file_type corrupt = Some (inl e) →
  (consolidate_files (before ++ corrupt :: after) file_type s).1 =
  (consolidate_files (before ++ after) file_type s).1.
Proof.
  intros Hcorrupt. rewrite !consolidate_files_run. cbn zeta. simpl.
  rewrite !omap_app. simpl. unfold produced at 2. by rewrite Hcorrupt.
Qed.

End FileFailures.

(** C2 on a file with two rows and a file without bytes. *)
Lemma consolidate_files_valid_and_corrupt_witness :
  ∃ s',
    consolidate_files (readers := Example.readers)
                      [Example.corrupt; Example.f1] "csv" (store_init ∅) =
      (inr (mkDataFrame ["X"; "Y"; "Filename"]
              [[Some (SStr "a"); Some (SStr "b"); Some (SStr "f1.csv")];
               [Some (SStr "c"); Some (SStr "d"); Some (SStr "f1.csv")]]), s') ∧
    errors (trace s') =
      [] ++ ["Error processing corrupt.csv: No columns to parse from file"] ∧
    contains "corrupt.csv"
             "Error processing corrupt.csv: No columns to parse from file" = true.
Proof.
  apply (consolidate_files_valid_and_corrupt
           (readers := Example.readers) "csv" Example.f1 Example.corrupt
           (mkDataFrame ["X"; "Y"] [[Some (SStr "a"); Some (SStr "b")];
                                    [Some (SStr "c"); Some (SStr "d")]])
           (ValueError "No columns to parse from file")
           [Example.corrupt; Example.f1] (store_init ∅)).
  - reflexivity.
  - by_evaluation.
  - reflexivity.
  - by right.
Defined.

(** ** Failures of single sheets *)

Section SheetFailures.

Context {readers : Readers}.

Lemma sheets_message_names_file file e :
  contains (name file) (sheets_message file e) = true.
Proof. destruct e; apply contains_middle. Qed.

(** The sheets before the first one that fails are loaded, the ones after
    it are not looked at. *)
Lemma loaded_sheets_first_failure file ok bad rest e :
  Forall (fun sheet => ∃ df, read_excel file (SheetName sheet) = inr df) ok →
  read_excel file (SheetName bad) = inl e →
  loaded_sheets file (ok ++ bad :: rest) = (tagged_sheets file ok, Some e) ∧
  attempted_sheets file (ok ++ bad :: rest) = ok ++ [bad].
Proof.
  intros Hok Hbad. induction Hok as [|sheet ok [df Hdf] _ [IH1 IH2]]; simpl.
  - by rewrite Hbad.
  - unfold tagged_sheets in *. simpl. by rewrite Hdf, IH1, IH2.
Qed.

Lemma sheet_tables_app selected l1 l2 :
  sheet_tables selected (l1 ++ l2) =
  sheet_tables selected l1 ++ sheet_tables selected l2.
Proof. unfold sheet_tables. apply bind_app. Qed.

(** C3, as the code has it. The failures of [consolidate_sheets] are
    isolated per file. When a selected sheet [bad] of [file] does not load
    and the selected sheets [ok] before it do: the call returns; the tables
    of [ok] are accumulated; one message, which names [file], is shown; the
    selected sheets [rest] after [bad] are neither read nor accumulated; the
    files before and after [file] in the list are processed as they are
    without it. *)
Theorem consolidate_sheets_isolates_failures_per_file
    (before after : list UploadedFile) (file : UploadedFile)
    (selected : gmap string (list string)) (ok rest : list string) (bad : string)
    (e : exn) (s : store) :
  selected !! name file = Some (ok ++ bad :: rest) →
  Forall (fun sheet => ∃ df, read_excel file (SheetName sheet) = inr df) ok →
  read_excel file (SheetName bad) = inl e →
  ∃ out s',
    consolidate_sheets (before ++ file :: after) selected s = (inr out, s') ∧
    out = foldl concat DataFrame_new
            (sheet_tables selected before ++ tagged_sheets file ok ++
             sheet_tables selected after) ∧
    trace s' =
      trace s ++ (before ≫= sheet_events selected) ++
      (map (fun sheet => ReadExcel (name file) (SheetName sheet)) (ok ++ [bad]) ++
       [Error (sheets_message file e)]) ++
      (after ≫= sheet_events selected) ∧
    contains (name file) (sheets_message file e) = true.
Proof.
  intros Hsel Hok Hbad. rewrite consolidate_sheets_run. cbn zeta.
  destruct (loaded_sheets_first_failure file ok bad rest e Hok Hbad)
    as [Hloaded Hattempted].
  eexists _, _. split_and!; [done| |simpl|apply sheets_message_names_file].
  - f_equal. rewrite sheet_tables_app. f_equal.
    change (file :: after) with ([file] ++ after).
    rewrite sheet_tables_app. f_equal.
    unfold sheet_tables. simpl. rewrite Hsel. simpl. by rewrite Hloaded, app_nil_r.
  - f_equal. rewrite bind_app. f_equal. csimpl. f_equal.
    unfold sheet_events. rewrite Hsel. simpl. by rewrite Hloaded, Hattempted.
Qed.

End SheetFailures.

(** C3 on two workbooks: [book.xlsx] has no sheet [Ghost], so its sheet
    [Costs], selected after it, is not loaded; [other.xlsx] is. *)
Lemma consolidate_sheets_isolates_failures_per_file_witness :
  ∃ out s',
    consolidate_sheets (readers := Example.readers)
      ([] ++ Example.book :: [Example.other])
      {[ "book.xlsx" := ["Sales"; "Ghost"; "Costs"]; "other.xlsx" := ["Sales"] ]}
      (store_init ∅) = (inr out, s') ∧
    out = mkDataFrame ["X"; "Filename"; "Sheet Name"]
            [[Some (SStr "a"); Some (SStr "book.xlsx"); Some (SStr "Sales")];
             [Some (SStr "b"); Some (SStr "book.xlsx"); Some (SStr "Sales")];
             [Some (SStr "e"); Some (SStr "other.xlsx"); Some (SStr "Sales")]] ∧
    trace s' =
      [ReadExcel "book.xlsx" (SheetName "Sales");
       ReadExcel "book.xlsx" (SheetName "Ghost");
       Error "Error processing sheet in book.xlsx: Worksheet named 'Ghost' not found";
       ReadExcel "other.xlsx" (SheetName "Sales")] ∧
    contains "book.xlsx"
      "Error processing sheet in book.xlsx: Worksheet named 'Ghost' not found" = true.
Proof.
  destruct (consolidate_sheets_isolates_failures_per_file
              (readers := Example.readers) [] [Example.other] Example.book
              {[ "book.xlsx" := ["Sales"; "Ghost"; "Costs"];
                 "other.xlsx" := ["Sales"] ]}
              ["Sales"] ["Costs"] "Ghost"
              (ValueError "Worksheet named 'Ghost' not found") (store_init ∅))
    as (out & s' & Hrun & Hout & Htrace & Hname).
  - reflexivity.
  - constructor; [eexists; reflexivity|constructor].
  - reflexivity.
  - exists out, s'. split; [exact Hrun|]. split; [by rewrite Hout|].
    split; [by rewrite Htrace|exact Hname].
Defined.

(** C3 as stated fails: [Costs] is selected and loads, but it comes after a
    sheet of the same file that does not, and is neither read nor
    accumulated. *)
Lemma consolidate_sheets_skips_sheets_after_failure :
  read_excel (Readers := Example.readers) Example.book (SheetName "Costs") =
    inr (mkDataFrame ["X"] [[Some (SStr "c")]]) ∧
  Example.run (consolidate_sheets (readers := Example.readers) [Example.book]
                 {[ "book.xlsx" := ["Ghost"; "Costs"] ]}) =
    (inr DataFrame_new,
     [ReadExcel "book.xlsx" (SheetName "Ghost");
      Error "Error processing sheet in book.xlsx: Worksheet named 'Ghost' not found"]).
Proof. split; reflexivity. Qed.

(** ** The selection of sheets *)

Section Selection.

Implicit Types (selected : gmap string (list string))
         (matches : list (string * string)).

Lemma auto_select_step_lookup selected filename sheet_name file :
  default [] (auto_select_step selected (filename, sheet_name) !! file) =
  default [] (selected !! file) ++
  (if decide (filename = file) then [sheet_name] else []).
Proof.
  unfold auto_select_step. case_decide as Hin.
  - destruct (decide (filename = file)) as [->|Hne].
    + rewrite lookup_insert_eq, lookup_total_alt.
      destruct Hin as [sheets Hsheets]. by rewrite Hsheets.
    + by rewrite lookup_insert_ne, app_nil_r.
  - destruct (decide (filename = file)) as [->|Hne].
    + rewrite !lookup_insert_eq, lookup_total_alt, lookup_insert_eq.
      apply eq_None_not_Some in Hin. by rewrite Hin.
    + by rewrite !lookup_insert_ne, app_nil_r.
Qed.

Lemma foldl_auto_select_step_lookup matches selected file :
  default [] (foldl auto_select_step selected matches !! file) =
  default [] (selected !! file) ++ matched_sheets file matches.
Proof.
  revert selected. unfold matched_sheets.
  induction matches as [|[filename sheet_name] matches IH]; intros selected.
  - simpl. by rewrite app_nil_r.
  - cbn [foldl]. rewrite IH, auto_select_step_lookup, <- app_assoc. f_equal.
    rewrite filter_cons. simpl. by case_decide.
Qed.

Lemma count_app {A} `{EqDecision A} (x : A) (l1 l2 : list A) :
  count x (l1 ++ l2) = count x l1 + count x l2.
Proof. unfold count. by rewrite filter_app, length_app. Qed.

Lemma count_matched_sheets file sheet matches :
  count sheet (matched_sheets file matches) = count (file, sheet) matches.
Proof.
  unfold count, matched_sheets.
  induction matches as [|[f sh] matches IH]; [done|].
  rewrite (filter_cons (fun match_ => match_.1 = file)).
  rewrite (filter_cons (fun y => y = (file, sheet))).
  destruct (decide ((f, sh).1 = file)) as [Hf|Hf]; simpl in Hf.
  - subst f. rewrite fmap_cons, filter_cons. simpl.
    destruct (decide (sh = sheet)) as [->|Hsh].
    + rewrite decide_True by done. simpl. by rewrite IH.
    + rewrite decide_False by congruence. done.
  - rewrite decide_False by congruence. done.
Qed.

Lemma foldl_select_step matches s :
  foldl select_step s matches =
  mkStore (consolidated_data s) (foldl auto_select_step (selected_sheets s) matches)
          (global_matching_sheets s) (trace s).
Proof.
  revert s. induction matches as [|m matches IH]; intros s; simpl.
  - by destruct s.
  - by rewrite IH.
Qed.

(** What [select_matches] does to the store is [auto_select]. *)
Lemma select_matches_run search_term s :
  select_matches search_term s =
  (inr (),
   mkStore (consolidated_data s)
           (auto_select search_term (global_matching_sheets s) (selected_sheets s))
           (global_matching_sheets s)
           (trace s ++
            if bool_decide (search_term ≠ "") &&
               bool_decide (global_matching_sheets s ≠ [])
            then [Write ("Automatically consolidating sheets matching '" +:+
                         search_term +:+ "' across all files:")]
            else [])).
Proof.
  unfold select_matches, auto_select, mbind, M_bind, get_global_matching_sheets.
  destruct (bool_decide (search_term ≠ "") &&
            bool_decide (global_matching_sheets s ≠ [])).
  - unfold st_write, emit. rewrite for_each_turns with (step := select_step).
    + by rewrite foldl_select_step.
    + done.
  - rewrite app_nil_r. by destruct s.
Qed.

(** C4, as the code has it. The matches of the search are appended to the
    selection without a check for what is there: when the search term is not
    empty, the entry of every file becomes what was selected by hand followed
    by the matched sheets of the file, so a pair of file and sheet has as many
    entries as it has in the manual selection and among the matches
    together. *)
Theorem select_matches_appends_every_match
    (search_term : string) (s : store) (file sheet : string) :
  search_term ≠ "" →
  ∃ s',
    select_matches search_term s = (inr (), s') ∧
    selected_sheets s' =
      auto_select search_term (global_matching_sheets s) (selected_sheets s) ∧
    default [] (selected_sheets s' !! file) =
      default [] (selected_sheets s !! file) ++
      matched_sheets file (global_matching_sheets s) ∧
    count sheet (default [] (selected_sheets s' !! file)) =
      count sheet (default [] (selected_sheets s !! file)) +
      count (file, sheet) (global_matching_sheets s).
Proof.
  intros Hterm. rewrite select_matches_run. eexists. split; [done|]. simpl.
  split; [done|].
  assert (default [] (auto_select search_term (global_matching_sheets s)
                        (selected_sheets s) !! file) =
          default [] (selected_sheets s !! file) ++
          matched_sheets file (global_matching_sheets s)) as Hentry.
  { unfold auto_select. rewrite bool_decide_eq_true_2 by done. simpl.
    case_bool_decide as Hm.
    - apply foldl_auto_select_step_lookup.
    - rewrite Hm. unfold matched_sheets. simpl.
      by rewrite app_nil_r. }
  split; [done|]. by rewrite Hentry, count_app, count_matched_sheets.
Qed.

End Selection.

(** C4 on a selection that holds [Sales] of [book.xlsx], which the search
    matches as well: the pair ends up with two entries. *)
Lemma select_matches_appends_every_match_witness :
  ∃ s',
    select_matches "sales"
      (mkStore DataFrame_new {[ "book.xlsx" := ["Sales"] ]}
               [("book.xlsx", "Sales")] []) = (inr (), s') ∧
    selected_sheets s' !! "book.xlsx" = Some ["Sales"; "Sales"] ∧
    count "Sales" (default [] (selected_sheets s' !! "book.xlsx")) = 2.
Proof.
  destruct (select_matches_appends_every_match "sales"
              (mkStore DataFrame_new {[ "book.xlsx" := ["Sales"] ]}
                       [("book.xlsx", "Sales")] [])
              "book.xlsx" "Sales")
    as (s' & Hrun & Hsel & Hentry & Hcount).
  - done.
  - exists s'. split; [exact Hrun|]. split; [by rewrite Hsel|exact Hcount].
Defined.

(** C4 as stated fails: a sheet that is selected by hand and matched by the
    search has two entries in the selection and is consolidated twice. *)
Lemma sheet_selected_and_matched_is_consolidated_twice :
  auto_select "sales" [("book.xlsx", "Sales")] {[ "book.xlsx" := ["Sales"] ]}
    !! "book.xlsx" = Some ["Sales"; "Sales"] ∧
  selected_sheets
    (sheet_mode_branch (readers := Example.readers) (widgets := Example.picks_all)
       [Example.book] "sales" (store_init ∅)).2 !! "book.xlsx" =
    Some ["Sales"; "Costs"; "Sales"] ∧
  consolidated_data
    (sheet_mode_branch (readers := Example.readers) (widgets := Example.picks_all)
       [Example.book] "sales" (store_init ∅)).2 =
    mkDataFrame ["X"; "Filename"; "Sheet Name"]
      [[Some (SStr "a"); Some (SStr "book.xlsx"); Some (SStr "Sales")];
       [Some (SStr "b"); Some (SStr "book.xlsx"); Some (SStr "Sales")];
       [Some (SStr "c"); Some (SStr "book.xlsx"); Some (SStr "Costs")];
       [Some (SStr "a"); Some (SStr "book.xlsx"); Some (SStr "Sales")];
       [Some (SStr "b"); Some (SStr "book.xlsx"); Some (SStr "Sales")]].
Proof. split_and!; by vm_compute. Qed.

(** ** The order of the columns *)

Section ColumnOrder.

Context {readers : Readers}.

(** Accumulation adds the labels it adds after the ones there are, and adds
    none that is there. *)
Lemma columns_foldl_concat a tables :
  ∃ added,
    columns (foldl concat a tables) = columns a ++ added ∧
    ∀ c, c ∈ added → c ∉ columns a.
Proof.
  revert a. induction tables as [|t tables IH]; intros a; simpl.
  - exists []. split; [by rewrite app_nil_r|]. intros c Hc. by inversion Hc.
  - destruct (IH (concat a t)) as (added & Hcols & Hnew).
    exists (new_columns (columns a) (columns t) ++ added).
    split; [by rewrite Hcols, app_assoc|].
    intros c Hc. apply elem_of_app in Hc as [Hc|Hc].
    + unfold new_columns in Hc. by apply list_elem_of_filter in Hc as [? _].
    + intros Ha. apply (Hnew c Hc). apply elem_of_columns_concat. by left.
Qed.

(** More files leave the columns there are in their places. *)
Lemma consolidate_files_columns_stable file_type l l' s :
  ∃ out out' s1 s2 added,
    consolidate_files l file_type s = (inr out, s1) ∧
    consolidate_files (l ++ l') file_type s = (inr out', s2) ∧
    columns out' = columns out ++ added ∧
    ∀ c, c ∈ added → c ∉ columns out.
Proof.
  rewrite !consolidate_files_run. cbn zeta. rewrite omap_app, foldl_app.
  destruct (columns_foldl_concat
              (foldl concat DataFrame_new (omap (produced file_type) l))
              (omap (produced file_type) l')) as (added & Hcols & Hnew).
  by eexists _, _, _, _, added.
Qed.

End ColumnOrder.

(** C5, as the code has it. The files [f1.csv] (labels [X], [Y], two rows)
    and [f2.csv] (labels [X], [Z], one row) give three rows under the labels
    [X], [Y], [Filename], [Z] in this order, the cell of [f2.csv] under [Y]
    and the cells of [f1.csv] under [Z] being null. For every list of files:
    consolidating more files after it leaves the columns of its result in
    their places and puts the labels that are new after them. *)
Theorem consolidate_files_appends_new_columns :
  Example.run (consolidate_files (readers := Example.readers)
                 [Example.f1; Example.f2] "csv") =
    (inr (mkDataFrame ["X"; "Y"; "Filename"; "Z"]
            [[Some (SStr "a"); Some (SStr "b"); Some (SStr "f1.csv"); None];
             [Some (SStr "c"); Some (SStr "d"); Some (SStr "f1.csv"); None];
             [Some (SStr "e"); None; Some (SStr "f2.csv"); Some (SStr "f")]]),
     [ReadCsv "f1.csv"; ReadCsv "f2.csv"]) ∧
  ∀ (readers : Readers) (file_type : string) (l l' : list UploadedFile) (s : store),
    ∃ out out' s1 s2 added,
      consolidate_files l file_type s = (inr out, s1) ∧
      consolidate_files (l ++ l') file_type s = (inr out', s2) ∧
      columns out' = columns out ++ added ∧
      ∀ c, c ∈ added → c ∉ columns out.
Proof.
  split; [by vm_compute|]. intros. apply consolidate_files_columns_stable.
Qed.

(** C5 as stated fails: [Filename] is added to the table of [f1.csv] before
    [f2.csv] brings [Z], so [Z] comes after [Filename]. *)
Lemma consolidate_files_puts_Filename_before_new_columns :
  columns (match (Example.run (consolidate_files (readers := Example.readers)
                                 [Example.f1; Example.f2] "csv")).1 with
           | inr out => out
           | inl _ => DataFrame_new
           end) = ["X"; "Y"; "Filename"; "Z"] ∧
  ["X"; "Y"; "Filename"; "Z"] ≠ ["X"; "Y"; "Z"; "Filename"].
Proof. split; [by vm_compute|discriminate]. Qed.

(** ** The empty search term *)

Lemma contains_empty (hay : string) : contains "" hay = true.
Proof. by destruct hay. Qed.

(** C6, as the code has it. The empty search term occurs in every sheet
    name, so the filter keeps all of them; it is the test on the term in
    front of the selection of the matches that keeps them out: with the
    empty term the selection is left as it is, whatever matched, and nothing
    is shown. *)
Theorem empty_search_term_matches_all_and_selects_nothing
    (sheet_names : list string) (s : store) :
  filtered_sheets "" sheet_names = sheet_names ∧
  (∀ matches selected, auto_select "" matches selected = selected) ∧
  select_matches "" s = (inr (), s).
Proof.
  split_and!.
  - unfold filtered_sheets. induction sheet_names as [|sheet l IH]; [done|].
    rewrite filter_cons_True; [by rewrite IH|].
    simpl. by rewrite contains_empty.
  - done.
  - rewrite select_matches_run. simpl. rewrite app_nil_r. by destruct s.
Qed.

(** C6 as stated fails: with the empty term the filter returns every name. *)
Lemma filtered_sheets_of_empty_term_is_not_empty :
  filtered_sheets "" ["Sales"; "Costs"] = ["Sales"; "Costs"] ∧
  filtered_sheets "" ["Sales"; "Costs"] ≠ [].
Proof. split; [by vm_compute|]. by vm_compute. Qed.

(** ** Nothing to display *)

Section EmptyResult.

Context {readers : Readers} {widgets : Widgets}.

(** What the file branch does, from what [consolidate_files] returns. *)
Lemma file_mode_branch_run uploaded_files file_type s :
  file_mode_branch uploaded_files file_type s =
  match consolidate_files uploaded_files file_type s with
  | (inr out, s') => show_result "Consolidated Data from Files:" out s'
  | (inl e, s') => (inl e, s')
  end.
Proof. done. Qed.

(** C7. When no file of the list gives a table (the reader raises on it, or
    the kind has no reader), [consolidate_files] returns the table without
    rows that it starts from, and the file branch ends normally: after the
    messages of the files it shows the warning that there is no data, and
    neither a preview nor a download. *)
Theorem file_mode_branch_without_tables
    (uploaded_files : list UploadedFile) (file_type : string) (s : store) :
  omap (produced file_type) uploaded_files = [] →
  ∃ s1 s',
    consolidate_files uploaded_files file_type s = (inr DataFrame_new, s1) ∧
    nrows DataFrame_new = 0 ∧
    file_mode_branch uploaded_files file_type s = (inr (), s') ∧
    consolidated_data s' = DataFrame_new ∧
    trace s' = trace s1 ++ [Warning "No data to display after consolidation."] ∧
    errors (trace s') = errors (trace s) ++ omap (failure file_type) uploaded_files.
Proof.
  intros Hnone. rewrite file_mode_branch_run, consolidate_files_run.
  cbn zeta. rewrite Hnone. simpl. eexists _, _. split_and!; try done.
  simpl. rewrite !errors_app, errors_file_events. simpl. by rewrite app_nil_r.
Qed.

End EmptyResult.

(** C7 on a file without bytes. *)
Lemma file_mode_branch_without_tables_witness :
  ∃ s1 s',
    consolidate_files (readers := Example.readers) [Example.corrupt] "csv"
                      (store_init ∅) = (inr DataFrame_new, s1) ∧
    file_mode_branch (readers := Example.readers) (widgets := Example.picks_none)
                     [Example.corrupt] "csv" (store_init ∅) = (inr (), s') ∧
    trace s' =
      [ReadCsv "corrupt.csv";
       Error "Error processing corrupt.csv: No columns to parse from file";
       Warning "No data to display after consolidation."].
Proof.
  destruct (file_mode_branch_without_tables
              (readers := Example.readers) (widgets := Example.picks_none)
              [Example.corrupt] "csv" (store_init ∅))
    as (s1 & s' & Hfiles & _ & Hbranch & _ & Htrace & _).
  - reflexivity.
  - exists s1, s'. split; [exact Hfiles|]. split; [exact Hbranch|].
    rewrite Htrace. by injection Hfiles as <-.
Defined.

(** ** Export *)

Section ExportFacts.

Context {widgets : Widgets}.

Lemma export_fits df :
  fits_sheet df → export df = inr [("Sheet1", sheet_rows df)].
Proof. intros Hfits. unfold export, to_excel. by rewrite decide_True. Qed.

Lemma export_too_large df :
  ¬ fits_sheet df → ∃ msg, export df = inl (ValueError msg).
Proof. intros Hfits. unfold export, to_excel. rewrite decide_False by done. by eexists. Qed.

(** What showing a table does: the warning for an empty one; for any other
    the heading and the preview, and then the download of its export, or the
    exception of the export. *)
Lemma show_result_run heading df s :
  show_result heading df s =
  if empty df then
    (inr (), mkStore (consolidated_data s) (selected_sheets s)
                     (global_matching_sheets s)
                     (trace s ++ [Warning "No data to display after consolidation."]))
  else
    match export df with
    | inr output =>
        (inr (), mkStore (consolidated_data s) (selected_sheets s)
                         (global_matching_sheets s)
                         (trace s ++
                          [Write heading; Dataframe df;
                           DownloadButton "Download Consolidated File" output
                             (text_input
                                "Enter name for the consolidated output file (without extension)"
                                "consolidated" +:+ ".xlsx")]))
    | inl e =>
        (inl e, mkStore (consolidated_data s) (selected_sheets s)
                        (global_matching_sheets s)
                        (trace s ++ [Write heading; Dataframe df]))
    end.
Proof.
  unfold show_result. destruct (empty df); simpl; [done|].
  unfold mbind, M_bind, st_write, st_dataframe, st_download_button, emit, call.
  simpl. destruct (export df); simpl; by rewrite <- !app_assoc.
Qed.



End ExportFacts.


(** ** A kind without a reader *)

Section UnknownKind.

Context {readers : Readers}.

(** C9. With a kind that is neither ['csv'] nor ['excel'],
    [consolidate_files] returns the table without columns and rows for
    every list of files, and leaves the trace as it is: no reader is called
    and nothing is shown. *)
Theorem consolidate_files_unknown_kind_is_silent
    (file_list : list UploadedFile) (file_type : string) (s : store) :
  file_type ≠ "csv" → file_type ≠ "excel" →
  ∃ s',
    consolidate_files file_list file_type s = (inr DataFrame_new, s') ∧
    nrows DataFrame_new = 0 ∧
    trace s' = trace s ∧
    reads (trace s') = reads (trace s) ∧
    errors (trace s') = errors (trace s).
Proof.
  intros Hcsv Hexcel. rewrite consolidate_files_run. cbn zeta.
  assert (∀ file, load file_type file = None) as Hload.
  { intros file. unfold load. by rewrite !decide_False. }
  assert (omap (produced file_type) file_list = []) as ->.
  { induction file_list as [|f l IH]; [done|]. simpl.
    unfold produced at 1. by rewrite Hload. }
  assert (file_list ≫= file_events file_type = []) as ->.
  { induction file_list as [|f l IH]; [done|]. csimpl.
    unfold file_events at 1. by rewrite Hload. }
  simpl. rewrite app_nil_r. by eexists.
Qed.

End UnknownKind.

(** C9 on the kind ['json']. *)
Lemma consolidate_files_unknown_kind_is_silent_witness :
  ∃ s',
    consolidate_files (readers := Example.readers) [Example.f1; Example.corrupt]
                      "json" (store_init ∅) = (inr DataFrame_new, s') ∧
    nrows DataFrame_new = 0 ∧
    trace s' = [] ∧
    reads (trace s') = [] ∧
    errors (trace s') = [].
Proof.
  apply (consolidate_files_unknown_kind_is_silent
           (readers := Example.readers) [Example.f1; Example.corrupt] "json"
           (store_init ∅)); discriminate.
Defined.

(** ** Tables that have the provenance columns already *)

Section ExistingColumns.

Context {readers : Readers}.

(** C10. A table that has a column [Filename] already gets none added in
    file mode: the labels of the result are those of the table, every cell
    of its [Filename] column is the name of the file, whatever the file held
    there, and the other columns are as in the file. In sheet mode the same
    holds of a column [Sheet Name] and the name of the sheet. *)
Theorem provenance_overwrites_existing_columns
    (csv_file : UploadedFile) (df : DataFrame)
    (book : UploadedFile) (sheet : string) (sheet_df : DataFrame) (s : store) :
  read_csv csv_file = inr df → well_formed df → "Filename" ∈ columns df →
  read_excel book (SheetName sheet) = inr sheet_df → well_formed sheet_df →
  "Sheet Name" ∈ columns sheet_df →
  (∃ out s',
     consolidate_files [csv_file] "csv" s = (inr out, s') ∧
     columns out = columns df ∧
     column out "Filename" = replicate (nrows df) (Some (SStr (name csv_file))) ∧
     ∀ c, c ≠ "Filename" → column out c = column df c) ∧
  (∃ out s',
     consolidate_sheets [book] {[ name book := [sheet] ]} s = (inr out, s') ∧
     columns out = tagged_schema (columns sheet_df) ∧
     column out "Sheet Name" = replicate (nrows sheet_df) (Some (SStr sheet)) ∧
     column out "Filename" = replicate (nrows sheet_df) (Some (SStr (name book))) ∧
     ∀ c, c ≠ "Filename" → c ≠ "Sheet Name" → column out c = column sheet_df c).
Proof.
  intros Hcsv Hwf Hin Hsheet Hwf' Hin'. split.
  - rewrite consolidate_files_run. cbn zeta. simpl.
    rewrite produced_csv, Hcsv. simpl.
    rewrite concat_new_l by by apply well_formed_setitem.
    destruct Hwf as [_ Hal]. eexists _, _. split_and!; [done| | |].
    + by apply columns_setitem_old.
    + by apply column_setitem.
    + intros c Hc. by apply column_setitem_ne.
  - rewrite consolidate_sheets_run. cbn zeta. unfold sheet_tables. simpl.
    rewrite lookup_singleton_eq. simpl. rewrite Hsheet. simpl.
    unfold tag_sheet.
    rewrite concat_new_l by by do 2 apply well_formed_setitem.
    destruct Hwf' as [_ Hal].
    pose proof (aligned_setitem sheet_df "Filename" (SStr (name book)) Hal) as Hal'.
    eexists _, _. split_and!; [done| | | |].
    + rewrite columns_setitem_old
        by by apply elem_of_columns_setitem_mono.
      unfold tagged_schema, setitem. by case_decide.
    + rewrite column_setitem by done. by rewrite nrows_setitem.
    + rewrite column_setitem_ne by done. by apply column_setitem.
    + intros c Hc Hc'. rewrite !column_setitem_ne by done. done.
Qed.

End ExistingColumns.

(** C10 on a CSV file and a workbook whose tables hold a [Filename] and a
    [Sheet Name] of their own. *)
Lemma provenance_overwrites_existing_columns_witness :
  (∃ out s',
     consolidate_files (readers := Example.readers) [Example.tagged] "csv"
                       (store_init ∅) = (inr out, s') ∧
     columns out = ["Filename"; "X"] ∧
     column out "Filename" = [Some (SStr "tagged.csv")]) ∧
  (∃ out s',
     consolidate_sheets (readers := Example.readers) [Example.tagged_book]
                        {[ "tagged.xlsx" := ["Data"] ]} (store_init ∅) =
       (inr out, s') ∧
     columns out = ["Sheet Name"; "Filename"; "X"] ∧
     column out "Sheet Name" = [Some (SStr "Data")] ∧
     column out "Filename" = [Some (SStr "tagged.xlsx")]).
Proof.
  destruct (provenance_overwrites_existing_columns
              (readers := Example.readers)
              Example.tagged
              (mkDataFrame ["Filename"; "X"]
                 [[Some (SStr "old.csv"); Some (SStr "a")]])
              Example.tagged_book "Data"
              (mkDataFrame ["Sheet Name"; "Filename"; "X"]
                 [[Some (SStr "old sheet"); Some (SStr "old.xlsx");
                   Some (SStr "a")]])
              (store_init ∅))
    as [(out & s' & Hrun & Hcols & Hname & _)
        (out2 & s2 & Hrun2 & Hcols2 & Hsheet2 & Hname2 & _)].
  - reflexivity.
  - by_evaluation.
  - by_evaluation.
  - reflexivity.
  - by_evaluation.
  - by_evaluation.
  - split.
    + exists out, s'. by rewrite Hcols, Hname.
    + exists out2, s2. by rewrite Hcols2, Hsheet2, Hname2.
Defined.

(** ** Users: registration, login and change of password *)

Section Users.

Implicit Types (users : list document) (d : document).

Lemma by_credentials_true email password d :
  by_credentials email password d = true ↔ d = mkDocument email password.
Proof.
  unfold by_credentials. destruct d as [e p]. simpl.
  rewrite andb_true_iff, !bool_decide_eq_true. split.
  - by intros [-> ->].
  - intros [= -> ->]. done.
Qed.

Lemma find_one_None query users :
  find_one query users = None ↔ ∀ d, d ∈ users → query d = false.
Proof.
  induction users as [|d users IH]; simpl.
  - split; [|done]. intros _ d Hd. by inversion Hd.
  - destruct (query d) eqn:Hq.
    + split; [done|]. intros Hall. specialize (Hall d). rewrite Hq in Hall.
      discriminate Hall. by left.
    + rewrite IH. split.
      * intros Hall d' Hd'. apply elem_of_cons in Hd' as [->|Hd']; [done|by apply Hall].
      * intros Hall d' Hd'. apply Hall. by right.
Qed.

Lemma find_one_Some query users d :
  find_one query users = Some d → d ∈ users ∧ query d = true.
Proof.
  induction users as [|d' users IH]; simpl; [done|].
  destruct (query d') eqn:Hq.
  - intros [= <-]. split; [by left|done].
  - intros Hfind. destruct (IH Hfind) as [? ?]. split; [by right|done].
Qed.

(** A login succeeds exactly when a document holds the email with the
    password. *)
Lemma authenticate_user_elem users email password :
  authenticate_user users email password = true ↔
  mkDocument email password ∈ users.
Proof.
  unfold authenticate_user.
  destruct (find_one (by_credentials email password) users) as [d|] eqn:Hfind.
  - apply find_one_Some in Hfind as [Hd Hq].
    apply by_credentials_true in Hq as ->. done.
  - split; [done|]. intros Hin.
    pose proof (proj1 (find_one_None _ _) Hfind _ Hin) as Hq.
    assert (by_credentials email password (mkDocument email password) = true)
      as Hq' by by apply by_credentials_true.
    congruence.
Qed.

Lemma find_one_by_email_None users email :
  find_one (by_email email) users = None ↔ email ∉ emails users.
Proof.
  rewrite find_one_None. unfold emails, by_email. rewrite list_elem_of_fmap.
  split.
  - intros Hall (d & -> & Hd). specialize (Hall d Hd).
    by rewrite bool_decide_eq_false in Hall.
  - intros Hnot d Hd. apply bool_decide_eq_false. intros <-.
    apply Hnot. by exists d.
Qed.

(** X1. Registration with an email that no document holds adds one
    document, at the end, and reports success; afterwards the login with
    the email and the password succeeds, and every login that succeeded
    before still does. *)
Theorem register_user_then_authenticate users email password :
  email ∉ emails users →
  register_user users email password =
    (users ++ [mkDocument email password], StSuccess "Registration successful.") ∧
  authenticate_user (register_user users email password).1 email password = true ∧
  ∀ email' password',
    authenticate_user users email' password' = true →
    authenticate_user (register_user users email password).1 email' password' = true.
Proof.
  intros Hfree. apply find_one_by_email_None in Hfree.
  unfold register_user. rewrite Hfree. unfold insert_one. simpl.
  split_and!; [done| |].
  - apply authenticate_user_elem, elem_of_app. right. by left.
  - intros e' p'. rewrite !authenticate_user_elem. intros Hin.
    apply elem_of_app. by left.
Qed.

(** X2. Registration with an email that a document holds already is
    refused: the collection stays as it is and [User already exists.] is
    shown, so that the password given opens the account only if it is the
    password of the account. *)
Theorem register_user_existing_email users email password :
  email ∈ emails users →
  register_user users email password = (users, StError "User already exists.") ∧
  authenticate_user (register_user users email password).1 email password =
    authenticate_user users email password.
Proof.
  intros Htaken. unfold register_user.
  destruct (find_one (by_email email) users) as [d|] eqn:Hfind; [done|].
  by apply find_one_by_email_None in Hfind.
Qed.

Lemma emails_update_one query new_password users :
  emails (update_one query new_password users) = emails users.
Proof.
  unfold emails. induction users as [|d users IH]; simpl; [done|].
  destruct (query d); csimpl; [done|by rewrite IH].
Qed.

(** X3. Registration and change of password keep the emails of the
    collection distinct, and a change of password keeps the emails and the
    number of documents as they are. *)
Theorem users_emails_stay_distinct users email password new_password :
  NoDup (emails users) →
  NoDup (emails (register_user users email password).1) ∧
  NoDup (emails (change_password users email password new_password).1) ∧
  emails (change_password users email password new_password).1 = emails users.
Proof.
  intros Hnd. split_and!.
  - unfold register_user.
    destruct (find_one (by_email email) users) as [d|] eqn:Hfind; [done|].
    apply find_one_by_email_None in Hfind. unfold insert_one, emails. simpl.
    rewrite fmap_app. apply NoDup_app. split_and!; [done| |apply NoDup_singleton].
    intros e He He'. apply list_elem_of_singleton in He'. simpl in He'. by subst.
  - unfold change_password.
    destruct (find_one _ users); simpl; [|done]. by rewrite emails_update_one.
  - unfold change_password.
    destruct (find_one _ users); simpl; [|done]. by rewrite emails_update_one.
Qed.

Lemma elem_of_update_one users email new_password :
  email ∈ emails users →
  mkDocument email new_password ∈ update_one (by_email email) new_password users.
Proof.
  unfold emails, by_email.
  induction users as [|d users IH]; simpl; intros Hin; [by inversion Hin|].
  case_bool_decide as Hd.
  - rewrite Hd. by left.
  - right. apply IH. apply elem_of_cons in Hin as [?|?]; [congruence|done].
Qed.

(** X4. A change of password with the email and the password of a document
    reports success, and the login with the new password succeeds
    afterwards; with any other pair it is refused, [Invalid email or old
    password.] is shown and the collection stays as it is. *)
Theorem change_password_then_authenticate users email old_password new_password :
  (authenticate_user users email old_password = true →
   (change_password users email old_password new_password).2 =
     StSuccess "Password changed successfully." ∧
   authenticate_user (change_password users email old_password new_password).1
                     email new_password = true) ∧
  (authenticate_user users email old_password = false →
   change_password users email old_password new_password =
     (users, StError "Invalid email or old password.")).
Proof.
  unfold change_password, authenticate_user at 1 3.
  destruct (find_one (by_credentials email old_password) users) as [d|] eqn:Hfind.
  - split; [|done]. intros _. split; [done|]. simpl.
    apply authenticate_user_elem, elem_of_update_one.
    apply find_one_Some in Hfind as [Hd Hq].
    apply by_credentials_true in Hq as ->.
    unfold emails. apply list_elem_of_fmap. by eexists; split; [|exact Hd].
  - split; [done|]. done.
Qed.

Lemma update_one_unique users email new_password d :
  NoDup (emails users) →
  d ∈ update_one (by_email email) new_password users →
  doc_email d = email → doc_password d = new_password.
Proof.
  unfold emails, by_email.
  induction users as [|d' users IH]; simpl; intros Hnd Hin Hmail;
    [by inversion Hin|].
  apply NoDup_cons in Hnd as [Hfresh Hnd]. case_bool_decide as Hd'.
  - apply elem_of_cons in Hin as [->|Hin]; [done|].
    exfalso. apply Hfresh. apply list_elem_of_fmap. exists d. split; [congruence|done].
  - apply elem_of_cons in Hin as [->|Hin]; [done|]. by apply IH.
Qed.

Lemma authenticate_user_update_one_other users email new_password email' password' :
  email' ≠ email →
  authenticate_user (update_one (by_email email) new_password users) email' password' =
  authenticate_user users email' password'.
Proof.
  intros Hne. unfold authenticate_user, by_email.
  induction users as [|d users IH]; simpl; [done|].
  case_bool_decide as Hd; simpl.
  - unfold by_credentials at 1 3. simpl.
    rewrite !bool_decide_eq_false_2 by congruence. done.
  - destruct (by_credentials email' password' d); [done|apply IH].
Qed.

(** X5. In a collection with distinct emails, after a change of password
    to a different one the login with the old password fails, and the
    logins with every other email go as before. *)
Theorem change_password_retires_old_password
    users email old_password new_password :
  NoDup (emails users) →
  authenticate_user users email old_password = true →
  new_password ≠ old_password →
  authenticate_user (change_password users email old_password new_password).1
                    email old_password = false ∧
  ∀ email' password',
    email' ≠ email →
    authenticate_user (change_password users email old_password new_password).1
                      email' password' =
    authenticate_user users email' password'.
Proof.
  intros Hnd Hauth Hnew. unfold change_password.
  unfold authenticate_user in Hauth.
  destruct (find_one (by_credentials email old_password) users) as [d|]; [|done].
  simpl. split.
  - apply not_true_is_false. rewrite authenticate_user_elem. intros Hin.
    pose proof (update_one_unique _ _ _ _ Hnd Hin eq_refl) as Hpw.
    simpl in Hpw. congruence.
  - intros e' p' Hne. by apply authenticate_user_update_one_other.
Qed.

End Users.

(** ** The consolidated table, cell by cell *)

Section Cells.

Context {readers : Readers}.

Implicit Types (df a b : DataFrame).

Lemma get_cell_absent (cols : list string) (row : list cell) c :
  c ∉ cols → get_cell cols row c = None.
Proof.
  revert row. induction cols as [|k cols IH]; intros [|x row] Hin; try done.
  apply not_elem_of_cons in Hin as [? ?]. simpl.
  rewrite decide_False by done. by apply IH.
Qed.

(** A table has nulls under a label it does not have. *)
Lemma column_absent df c :
  c ∉ columns df → column df c = replicate (nrows df) None.
Proof.
  intros Hc. unfold column, nrows.
  induction (data df) as [|row rows IH]; simpl; [done|].
  by rewrite get_cell_absent, IH.
Qed.

Lemma length_column df c : length (column df c) = nrows df.
Proof. unfold column. apply length_map. Qed.

(** Under every label the accumulated table holds the cells of the first
    table, then the cells of the second. *)
Lemma column_concat_any a b c :
  column (concat a b) c = column a c ++ column b c.
Proof.
  destruct (decide (c ∈ columns (concat a b))) as [Hin|Hout].
  - by apply column_concat.
  - rewrite !column_absent, nrows_concat.
    + by rewrite replicate_add.
    + intros Hc. apply Hout, elem_of_columns_concat. by right.
    + intros Hc. apply Hout, elem_of_columns_concat. by left.
    + done.
Qed.

Lemma column_foldl_concat_any a tables c :
  column (foldl concat a tables) c =
  column a c ++ mjoin ((fun t => column t c) <$> tables).
Proof.
  revert a. induction tables as [|t tables IH]; intros a; simpl.
  - by rewrite app_nil_r.
  - by rewrite IH, column_concat_any, <- app_assoc.
Qed.

(** The cells that the tagged table of a file holds under a label. *)
Lemma column_produced file_type file c :
  (∀ df, load file_type file = Some (inr df) → aligned df) →
  match produced file_type file with
  | Some t => column t c
  | None => []
  end = file_cells file_type c file.
Proof.
  intros Hal. unfold produced, file_cells.
  destruct (load file_type file) as [[e|df]|]; try done.
  specialize (Hal df eq_refl). case_decide as Hc.
  - subst c. by apply column_setitem.
  - rewrite column_setitem_ne by done. case_decide; [done|by apply column_absent].
Qed.

Lemma columns_of_produced file_type l c :
  (∀ file, file ∈ l → ∀ df, load file_type file = Some (inr df) → aligned df) →
  mjoin ((fun t => column t c) <$> omap (produced file_type) l) =
  l ≫= file_cells file_type c.
Proof.
  induction l as [|f l IH]; intros Hal; [done|]. csimpl.
  rewrite <- (column_produced file_type f c) by (intros df; apply Hal; by left).
  rewrite <- IH by (intros f' Hf'; apply Hal; by right).
  by destruct (produced file_type f).
Qed.

Lemma rows_of_produced file_type l :
  sum_list (nrows <$> omap (produced file_type) l) =
  sum_list (file_rows file_type <$> l).
Proof.
  induction l as [|f l IH]; [done|]. csimpl. rewrite <- IH.
  unfold produced, file_rows.
  destruct (load file_type f) as [[e|df]|]; csimpl; try done.
  by rewrite nrows_setitem.
Qed.

(** X6. For every list of files and every kind, whether the files load or
    not and whatever their labels are, when the tables that load are
    aligned and hold text and nulls only: the table that
    [consolidate_files] returns has as many rows as the files that load
    have together, and under every label it holds, file after file in the
    order of the list, what each file that loads contributes: its name
    under [Filename], its own cells under a label it has, and nulls under a
    label it does not have. *)
Theorem consolidate_files_cells
    (file_list : list UploadedFile) (file_type : string) (s : store) :
  (∀ file, file ∈ file_list →
           ∀ df, load file_type file = Some (inr df) → aligned df) →
  (∀ file, file ∈ file_list →
           ∀ df, load file_type file = Some (inr df) → text_table df) →
  ∃ out s',
    consolidate_files file_list file_type s = (inr out, s') ∧
    nrows out = sum_list (file_rows file_type <$> file_list) ∧
    ∀ c, column out c = file_list ≫= file_cells file_type c.
Proof.
  intros Hal _. rewrite consolidate_files_run. cbn zeta.
  eexists _, _. split; [done|]. split.
  - by rewrite nrows_foldl_concat, rows_of_produced.
  - intros c. rewrite column_foldl_concat_any. simpl.
    by apply columns_of_produced.
Qed.

(** X7. Every cell of the [Filename] column of the table that
    [consolidate_files] returns is the name of a file of the list that
    loads: no row is without its provenance. *)
Theorem consolidate_files_Filename_never_null
    (file_list : list UploadedFile) (file_type : string) (s : store) (x : cell) :
  (∀ file, file ∈ file_list →
           ∀ df, load file_type file = Some (inr df) → aligned df) →
  x ∈ column (match (consolidate_files file_list file_type s).1 with
              | inr out => out
              | inl _ => DataFrame_new
              end) "Filename" →
  ∃ file df, file ∈ file_list ∧ load file_type file = Some (inr df) ∧
             x = Some (SStr (name file)).
Proof.
  intros Hal. rewrite consolidate_files_run. cbn zeta. simpl.
  rewrite column_foldl_concat_any. simpl. rewrite columns_of_produced by done.
  intros Hx. apply list_elem_of_bind in Hx as (file & Hx & Hfile).
  unfold file_cells in Hx.
  destruct (load file_type file) as [[e|df]|] eqn:Hload;
    try by inversion Hx.
  rewrite decide_True in Hx by done.
  apply elem_of_replicate in Hx as [-> _]. by exists file, df.
Qed.

End Cells.

(** ** The labels of the consolidated table *)

Section Labels.

Context {readers : Readers}.

Implicit Types (df a b : DataFrame).

Lemma elem_of_columns_foldl_concat a tables c :
  c ∈ columns (foldl concat a tables) ↔
  c ∈ columns a ∨ ∃ t, t ∈ tables ∧ c ∈ columns t.
Proof.
  revert a. induction tables as [|t tables IH]; intros a; simpl.
  - split; [by left|]. intros [?|(t & Ht & _)]; [done|by inversion Ht].
  - rewrite IH, elem_of_columns_concat. split.
    + intros [[?|?]|(t' & Ht' & ?)]; [by left| |].
      * right. exists t. split; [by left|done].
      * right. exists t'. split; [by right|done].
    + intros [?|(t' & Ht' & ?)]; [by left; left|].
      apply elem_of_cons in Ht' as [->|Ht']; [by left; right|].
      right. by exists t'.
Qed.

Lemma aligned_foldl_concat a tables :
  aligned a → aligned (foldl concat a tables).
Proof.
  revert a. induction tables as [|t tables IH]; intros a Hal; simpl; [done|].
  apply IH, aligned_concat.
Qed.

Lemma NoDup_columns_foldl_concat a tables :
  NoDup (columns a) → Forall (fun t => NoDup (columns t)) tables →
  NoDup (columns (foldl concat a tables)).
Proof.
  intros Ha Hts. revert a Ha.
  induction Hts as [|t tables Ht _ IH]; intros a Ha; simpl; [done|].
  by apply IH, NoDup_columns_concat.
Qed.

Lemma elem_of_columns_setitem_iff df c c' v :
  c ∈ columns (setitem df c' v) ↔ c = c' ∨ c ∈ columns df.
Proof.
  unfold setitem. case_decide as Hc'; simpl.
  - split; [by right|]. by intros [->|?].
  - rewrite elem_of_app, list_elem_of_singleton. tauto.
Qed.

(** X8. The labels of the table that [consolidate_files] returns are
    [Filename], when a file loads, and the labels of the files that load,
    and no other; its rows are aligned with them; the labels are distinct
    when those of every file that loads are. *)
Theorem consolidate_files_labels
    (file_list : list UploadedFile) (file_type : string) (s : store) :
  ∃ out s',
    consolidate_files file_list file_type s = (inr out, s') ∧
    (∀ c, c ∈ columns out ↔
          ∃ file df, file ∈ file_list ∧ load file_type file = Some (inr df) ∧
                     (c = "Filename" ∨ c ∈ columns df)) ∧
    aligned out ∧
    ((∀ file df, file ∈ file_list → load file_type file = Some (inr df) →
                 NoDup (columns df)) →
     NoDup (columns out)).
Proof.
  rewrite consolidate_files_run. cbn zeta. eexists _, _. split; [done|].
  split_and!.
  - intros c. rewrite elem_of_columns_foldl_concat. simpl. split.
    + intros [Hc|(t & Ht & Hc)]; [by inversion Hc|].
      apply list_elem_of_omap in Ht as (file & Hfile & Ht).
      unfold produced in Ht.
      destruct (load file_type file) as [[e|df]|] eqn:Hload; try done.
      injection Ht as <-. apply elem_of_columns_setitem_iff in Hc.
      by exists file, df.
    + intros (file & df & Hfile & Hload & Hc). right.
      exists (setitem df "Filename" (SStr (name file))). split.
      * apply list_elem_of_omap. exists file. split; [done|].
        unfold produced. by rewrite Hload.
      * by apply elem_of_columns_setitem_iff.
  - apply aligned_foldl_concat. constructor.
  - intros Hnd. apply NoDup_columns_foldl_concat; [constructor|].
    apply Forall_forall. intros t Ht.
    apply list_elem_of_omap in Ht as (file & Hfile & Ht).
    unfold produced in Ht.
    destruct (load file_type file) as [[e|df]|] eqn:Hload; try done.
    injection Ht as <-. apply NoDup_columns_setitem. by eapply Hnd.
Qed.

End Labels.

(** ** The table of the selected sheets *)

Section SheetCells.

Context {readers : Readers}.

Lemma column_tag_sheet file sheet df :
  aligned df →
  column (tag_sheet file sheet df) "Filename" =
    replicate (nrows df) (Some (SStr (name file))) ∧
  column (tag_sheet file sheet df) "Sheet Name" =
    replicate (nrows df) (Some (SStr sheet)) ∧
  nrows (tag_sheet file sheet df) = nrows df.
Proof.
  intros Hal. unfold tag_sheet.
  pose proof (aligned_setitem df "Filename" (SStr (name file)) Hal) as Hal'.
  split_and!.
  - rewrite column_setitem_ne by done. by apply column_setitem.
  - rewrite column_setitem by done. by rewrite nrows_setitem.
  - by rewrite !nrows_setitem.
Qed.

Lemma loaded_sheets_rows file sheets :
  (∀ sheet df, read_excel file (SheetName sheet) = inr df → aligned df) →
  let tables := (loaded_sheets file sheets).1 in
  sum_list (nrows <$> tables) = sum_list ((loaded_rows file sheets).*2) ∧
  mjoin ((fun t => column t "Filename") <$> tables) =
    loaded_rows file sheets ≫=
      (fun '(sheet, n) => replicate n (Some (SStr (name file)))) ∧
  mjoin ((fun t => column t "Sheet Name") <$> tables) =
    loaded_rows file sheets ≫= (fun '(sheet, n) => replicate n (Some (SStr sheet))).
Proof.
  intros Hal. induction sheets as [|sheet sheets (IH1 & IH2 & IH3)]; [done|].
  cbn zeta in *. simpl.
  destruct (read_excel file (SheetName sheet)) as [e|df] eqn:Hread; [done|].
  destruct (loaded_sheets file sheets) as [tables e]. simpl in *. csimpl.
  destruct (column_tag_sheet file sheet df (Hal _ _ Hread)) as (-> & -> & ->).
  split_and!; f_equal; [exact IH1|exact IH2|exact IH3].
Qed.

(** X9. For every list of workbooks and every selection, the table that
    [consolidate_sheets] returns has as many rows as the sheets it loads
    have together (of every file the selected sheets up to the first one
    that fails), and its [Filename] and [Sheet Name] columns hold, sheet
    after sheet, the name of the file and of the sheet that each row
    comes from. The reader is assumed to return aligned tables. *)
Theorem consolidate_sheets_rows_and_provenance
    (file_list : list UploadedFile) (selected : gmap string (list string))
    (s : store) :
  (∀ file sheet df, file ∈ file_list →
                    read_excel file (SheetName sheet) = inr df → aligned df) →
  let loaded file := loaded_rows file (default [] (selected !! name file)) in
  ∃ out s',
    consolidate_sheets file_list selected s = (inr out, s') ∧
    nrows out = sum_list (file_list ≫= fun file => (loaded file).*2) ∧
    column out "Filename" =
      file_list ≫= (fun file =>
        loaded file ≫= fun '(sheet, n) => replicate n (Some (SStr (name file)))) ∧
    column out "Sheet Name" =
      file_list ≫= (fun file =>
        loaded file ≫= fun '(sheet, n) => replicate n (Some (SStr sheet))).
Proof.
  intros Hal loaded. rewrite consolidate_sheets_run. cbn zeta.
  eexists _, _. split; [done|].
  rewrite nrows_foldl_concat, !column_foldl_concat_any. simpl.
  unfold sheet_tables, loaded.
  induction file_list as [|f l IH]; [done|]. csimpl.
  rewrite !fmap_app, !join_app, sum_list_with_app.
  destruct (loaded_sheets_rows f (default [] (selected !! name f)))
    as (-> & -> & ->).
  { intros sheet df. apply Hal. by left. }
  destruct IH as (-> & -> & ->).
  { intros file sheet df Hfile. apply Hal. by right. }
  by rewrite sum_list_with_app.
Qed.

End SheetCells.

(** ** The selection that is consolidated *)

Section Mapped.

Context {readers : Readers}.

Implicit Types (selected mapped : gmap string (list string)).

Lemma foldl_mapped_lookup selected mapped l n :
  foldl (fun mapped file =>
           match selected !! name file with
           | Some (sheet :: sheets) => <[name file := sheet :: sheets]> mapped
           | _ => mapped
           end) mapped l !! n =
  match selected !! n with
  | Some (sheet :: sheets) =>
      if decide (n ∈ name <$> l) then Some (sheet :: sheets) else mapped !! n
  | _ => mapped !! n
  end.
Proof.
  revert mapped. induction l as [|f l IH]; intros mapped.
  - simpl. by destruct (selected !! n) as [[|? ?]|].
  - cbn [foldl]. rewrite IH. csimpl.
    destruct (selected !! n) as [[|sheet sheets]|] eqn:Hn.
    + destruct (selected !! name f) as [[|? ?]|] eqn:Hf; try done.
      rewrite lookup_insert_ne; [done|]. intros Heq. congruence.
    + destruct (decide (n ∈ name <$> l)) as [Hin|Hout].
      * rewrite decide_True; [done|]. by right.
      * destruct (decide (name f = n)) as [Heq|Hne].
        -- rewrite decide_True by (rewrite Heq; by left).
           rewrite Heq, Hn. apply lookup_insert_eq.
        -- rewrite decide_False.
           2:{ intros Hin. apply elem_of_cons in Hin as [?|?]; congruence. }
           destruct (selected !! name f) as [[|? ?]|]; try done.
           by rewrite lookup_insert_ne.
    + destruct (selected !! name f) as [[|? ?]|] eqn:Hf; try done.
      rewrite lookup_insert_ne; [done|]. intros Heq. congruence.
Qed.

(** X10. The selection that the sheet branch hands to
    [consolidate_sheets] holds, of the selection of the session, exactly
    the entries of the uploaded files that are not empty: an entry of a
    file that is not uploaded any more and an entry without sheets are
    left out. *)
Theorem mapped_sheets_lookup
    (uploaded_files : list UploadedFile) selected (n : string)
    (sheets : list string) :
  mapped_sheets uploaded_files selected !! n = Some sheets ↔
  n ∈ name <$> uploaded_files ∧ selected !! n = Some sheets ∧ sheets ≠ [].
Proof.
  unfold mapped_sheets. rewrite foldl_mapped_lookup, lookup_empty.
  destruct (selected !! n) as [[|sheet rest]|].
  - split; [done|]. by intros (_ & [= <-] & ?).
  - case_decide as Hin.
    + split; [by intros [= <-]|]. by intros (_ & ? & _).
    + split; [done|]. by intros (? & _).
  - split; [done|]. by intros (_ & ? & _).
Qed.

Lemma mapped_sheets_default uploaded_files selected file :
  file ∈ uploaded_files →
  default [] (mapped_sheets uploaded_files selected !! name file) =
  default [] (selected !! name file).
Proof.
  intros Hfile. unfold mapped_sheets. rewrite foldl_mapped_lookup, lookup_empty.
  destruct (selected !! name file) as [[|sheet rest]|]; try done.
  rewrite decide_True; [done|]. apply list_elem_of_fmap. by exists file.
Qed.

Lemma bind_ext_elem {A B} (g h : A → list B) (l : list A) :
  (∀ x, x ∈ l → g x = h x) → l ≫= g = l ≫= h.
Proof.
  induction l as [|x l IH]; intros Hgh; [done|]. csimpl.
  rewrite Hgh by by left. rewrite IH; [done|]. intros y Hy. apply Hgh. by right.
Qed.

(** The files of the list are consolidated in the same way under the
    selection of the session and under what is mapped from it. *)
Lemma consolidate_sheets_mapped uploaded_files selected s :
  consolidate_sheets uploaded_files (mapped_sheets uploaded_files selected) s =
  consolidate_sheets uploaded_files selected s.
Proof.
  rewrite !consolidate_sheets_run. cbn zeta.
  assert (sheet_tables (mapped_sheets uploaded_files selected) uploaded_files =
          sheet_tables selected uploaded_files) as ->.
  { unfold sheet_tables. apply bind_ext_elem. intros f Hf.
    by rewrite mapped_sheets_default. }
  assert (uploaded_files ≫= sheet_events (mapped_sheets uploaded_files selected) =
          uploaded_files ≫= sheet_events selected) as ->.
  { apply bind_ext_elem. intros f Hf. unfold sheet_events.
    by rewrite mapped_sheets_default. }
  done.
Qed.

(** X11. Leaving out the empty entries and the entries of the files that
    are not uploaded changes nothing for the consolidation:
    [consolidate_sheets] returns the same table and shows and reads the
    same with the selection of the session as with what the branch maps
    from it. *)
Theorem consolidate_sheets_ignores_the_mapping
    (uploaded_files : list UploadedFile) selected (s : store) :
  consolidate_sheets uploaded_files (mapped_sheets uploaded_files selected) s =
  consolidate_sheets uploaded_files selected s.
Proof. apply consolidate_sheets_mapped. Qed.

End Mapped.

(** ** The sheet branch as a whole *)

Section SheetBranch.

Context {readers : Readers} {widgets : Widgets}.

Lemma foldl_append_matches (file_name : string) (sheets : list string) s :
  foldl (fun s sheet =>
           mkStore (consolidated_data s) (selected_sheets s)
                   (global_matching_sheets s ++ [(file_name, sheet)]) (trace s))
        s sheets =
  mkStore (consolidated_data s) (selected_sheets s)
          (global_matching_sheets s ++ ((fun sheet => (file_name, sheet)) <$> sheets))
          (trace s).
Proof.
  revert s. induction sheets as [|sheet sheets IH]; intros s; csimpl.
  - rewrite app_nil_r. by destruct s.
  - rewrite IH. simpl. by rewrite <- app_assoc.
Qed.

(** One turn of the scan of the uploaded files, on a workbook. *)
Lemma scan_file_run search_term file s :
  (∃ sheet_names, ExcelFile_sheet_names file = inr sheet_names) →
  scan_file search_term file s =
  (inr (),
   mkStore (consolidated_data s)
           (<[name file :=
                multiselect ("Select sheets in " +:+ name file +:+ " manually:")
                            (sheet_names_of file)
                            (default [] (selected_sheets s !! name file))]>
              (selected_sheets s))
           (global_matching_sheets s ++
            ((fun sheet => (name file, sheet)) <$>
             filtered_sheets search_term (sheet_names_of file)))
           (trace s)).
Proof.
  intros [sheet_names Hnames]. unfold scan_file, sheet_names_of.
  unfold mbind at 1 2 3, M_bind at 1 2 3, call, get_selected_sheets,
    set_selected_sheets.
  rewrite Hnames. simpl.
  rewrite for_each_turns
    with (step := fun s sheet =>
            mkStore (consolidated_data s) (selected_sheets s)
                    (global_matching_sheets s ++ [(name file, sheet)]) (trace s)).
  - by rewrite foldl_append_matches.
  - done.
Qed.

(** One turn of the scan on bytes that are no workbook: the exception of
    [pd.ExcelFile] goes up, nothing is assigned. *)
Lemma scan_file_raises search_term file e s :
  ExcelFile_sheet_names file = inl e →
  scan_file search_term file s = (inl e, s).
Proof.
  intros Hnames. unfold scan_file, mbind, M_bind, call. by rewrite Hnames.
Qed.

(** The scan of workbooks. *)
Lemma scan_files_run search_term l s :
  Forall (fun file => ∃ sheet_names, ExcelFile_sheet_names file = inr sheet_names) l →
  for_each l (scan_file search_term) s =
  (inr (),
   mkStore (consolidated_data s) (manual_selection l (selected_sheets s))
           (global_matching_sheets s ++ search_matches search_term l) (trace s)).
Proof.
  intros Hall. revert s. induction Hall as [|f l Hf _ IH]; intros s.
  - simpl. unfold search_matches. simpl. rewrite app_nil_r. by destruct s.
  - rewrite for_each_cons, scan_file_run by done. rewrite IH. simpl.
    unfold search_matches. csimpl. by rewrite <- app_assoc.
Qed.

(** The scan ends at the first file that is no workbook. *)
Lemma scan_files_raises search_term before bad after e s :
  Forall (fun file => ∃ sheet_names, ExcelFile_sheet_names file = inr sheet_names)
         before →
  ExcelFile_sheet_names bad = inl e →
  for_each (before ++ bad :: after) (scan_file search_term) s =
  (inl e,
   mkStore (consolidated_data s) (manual_selection before (selected_sheets s))
           (global_matching_sheets s ++ search_matches search_term before)
           (trace s)).
Proof.
  intros Hall Hbad. revert s. induction Hall as [|f l Hf _ IH]; intros s.
  - change ([] ++ bad :: after) with (bad :: after).
    rewrite for_each_cons, (scan_file_raises _ _ e) by done.
    unfold search_matches. simpl. rewrite app_nil_r. by destruct s.
  - change ((f :: l) ++ bad :: after) with (f :: (l ++ bad :: after)).
    rewrite for_each_cons, scan_file_run by done. rewrite IH. simpl.
    unfold search_matches. csimpl. by rewrite <- app_assoc.
Qed.

(** What showing the result leaves in the store: it reads nothing, and it
    ends normally unless the table does not fit a sheet. *)
Lemma show_result_store heading df s :
  ∃ r shown,
    show_result heading df s =
    (r, mkStore (consolidated_data s) (selected_sheets s)
                (global_matching_sheets s) (trace s ++ shown)) ∧
    reads shown = [] ∧
    (fits_sheet df → r = inr ()) ∧
    (r = inr () ∨ ∃ msg, r = inl (ValueError msg)).
Proof.
  rewrite show_result_run. destruct (empty df).
  - eexists _, _. split_and!; [done|done|done|by left].
  - destruct (decide (fits_sheet df)) as [Hfits|Hfits].
    + rewrite export_fits by done. eexists _, _. split_and!; [done|done|done|by left].
    + destruct (export_too_large df Hfits) as [msg ->].
      eexists _, _. split_and!; [done|done|done|right; by eexists].
Qed.

(** X12. The sheet branch does not catch what [pd.ExcelFile] raises: when
    an uploaded file is no workbook, the branch ends with that exception.
    Nothing is read, consolidated or shown, not even for the workbooks
    before that file; what was selected for them is in the session. *)
Theorem sheet_mode_branch_raises_on_a_file_that_is_no_workbook
    (before after : list UploadedFile) (bad : UploadedFile) (e : exn)
    (search_term : string) (s : store) :
  Forall (fun file => ∃ sheet_names, ExcelFile_sheet_names file = inr sheet_names)
         before →
  ExcelFile_sheet_names bad = inl e →
  ∃ s',
    sheet_mode_branch (before ++ bad :: after) search_term s = (inl e, s') ∧
    trace s' = trace s ∧
    consolidated_data s' = consolidated_data s ∧
    selected_sheets s' = manual_selection before (selected_sheets s).
Proof.
  intros Hall Hbad. unfold sheet_mode_branch.
  unfold mbind at 1 2, M_bind at 1 2, set_global_matching_sheets at 1.
  rewrite (scan_files_raises search_term before bad after e) by done.
  by eexists.
Qed.

(** The sheet branch on workbooks, step by step. *)
Lemma sheet_mode_branch_run l search_term s :
  Forall (fun file => ∃ sheet_names, ExcelFile_sheet_names file = inr sheet_names) l →
  let matches := search_matches search_term l in
  let selected :=
    auto_select search_term matches (manual_selection l (selected_sheets s)) in
  let out := foldl concat DataFrame_new (sheet_tables selected l) in
  sheet_mode_branch l search_term s =
  show_result "Consolidated Data from Sheets:" out
    (mkStore out selected matches
       (trace s ++
        (if bool_decide (search_term ≠ "") && bool_decide (matches ≠ [])
         then [Write ("Automatically consolidating sheets matching '" +:+
                      search_term +:+ "' across all files:")]
         else []) ++
        (l ≫= sheet_events selected))).
Proof.
  intros Hall matches selected out. unfold sheet_mode_branch.
  unfold mbind at 1 2, M_bind at 1 2, set_global_matching_sheets at 1.
  rewrite scan_files_run by done. simpl.
  unfold mbind at 1, M_bind at 1. rewrite select_matches_run. simpl.
  unfold mbind at 1, M_bind at 1, get_selected_sheets at 1. simpl.
  unfold mbind at 1, M_bind at 1.
  rewrite consolidate_sheets_mapped, consolidate_sheets_run. cbn zeta. simpl.
  by rewrite <- app_assoc.
Qed.

Lemma reads_app t1 t2 : reads (t1 ++ t2) = reads t1 ++ reads t2.
Proof. unfold reads. apply omap_app. Qed.

(** X13. On workbooks whose sheet names are ASCII text, with a search
    term that is ASCII text, the sheet branch consolidates, of every
    uploaded file, what the multiselect of the file returned followed, when
    the search term is not empty, by the sheets of the file that the term
    matches: that selection is what the session holds afterwards, and the
    table is the one that [consolidate_sheets] accumulates for it. The
    only files read are those of the consolidation. The branch ends
    normally when the table fits a sheet, and in any case normally or with
    the [ValueError] of the export. *)
Theorem sheet_mode_branch_consolidates_manual_and_matched
    (uploaded_files : list UploadedFile) (search_term : string) (s : store) :
  Forall (fun file => ∃ sheet_names, ExcelFile_sheet_names file = inr sheet_names)
         uploaded_files →
  ascii_text search_term →
  Forall (fun file => Forall (fun sheet => ascii_text sheet) (sheet_names_of file))
         uploaded_files →
  ∃ r s',
    sheet_mode_branch uploaded_files search_term s = (r, s') ∧
    selected_sheets s' =
      auto_select search_term (search_matches search_term uploaded_files)
                  (manual_selection uploaded_files (selected_sheets s)) ∧
    global_matching_sheets s' = search_matches search_term uploaded_files ∧
    consolidated_data s' =
      foldl concat DataFrame_new (sheet_tables (selected_sheets s') uploaded_files) ∧
    reads (trace s') =
      reads (trace s) ++ reads (uploaded_files ≫= sheet_events (selected_sheets s')) ∧
    (fits_sheet (consolidated_data s') → r = inr ()) ∧
    (r = inr () ∨ ∃ msg, r = inl (ValueError msg)).
Proof.
  intros Hall _ _. rewrite sheet_mode_branch_run by done. cbn zeta.
  match goal with
  | |- context [show_result ?h ?df ?st] =>
      destruct (show_result_store h df st) as (r & shown & -> & Hshown & Hfits & Hr)
  end.
  eexists _, _. split; [done|]. simpl. split_and!; try done.
  rewrite !reads_app, Hshown, app_nil_r. f_equal.
  by destruct (bool_decide (search_term ≠ "") &&
               bool_decide (search_matches search_term uploaded_files ≠ [])).
Qed.

End SheetBranch.

(** ** What the file branch shows *)

Section FileBranch.

Context {readers : Readers} {widgets : Widgets}.

(** A table with a [Filename] column is empty exactly when it has no row. *)
Lemma empty_of_accumulated tables :
  Forall (fun t => "Filename" ∈ columns t) tables →
  empty (foldl concat DataFrame_new tables) =
  bool_decide (nrows (foldl concat DataFrame_new tables) = 0).
Proof.
  intros Hall. destruct tables as [|t tables]; [done|].
  unfold empty, nrows. apply Forall_cons in Hall as [Ht _].
  rewrite bool_decide_eq_false_2; [done|].
  assert ("Filename" ∈ columns (foldl concat DataFrame_new (t :: tables))) as Hin.
  { apply elem_of_columns_foldl_concat. right. exists t. split; [by left|done]. }
  destruct (columns (foldl concat DataFrame_new (t :: tables)));
    [by inversion Hin|done].
Qed.

(** X15. What the file branch shows goes by the rows that the files
    contribute and by the bounds of a sheet. Without a row, also when files
    load but have no rows, it shows the warning that there is no data and
    no table. With a row it shows the heading and the table; then, when
    the table fits a sheet, it offers the export of the table for download
    under the name that the user gave with [.xlsx] after it, and when the
    table does not fit, it ends with the [ValueError] of the export and
    offers no download. *)
Theorem file_mode_branch_shows_warning_or_table_and_download
    (uploaded_files : list UploadedFile) (file_type : string) (s : store) :
  let rows := sum_list (file_rows file_type <$> uploaded_files) in
  ∃ out s1,
    consolidate_files uploaded_files file_type s = (inr out, s1) ∧
    nrows out = rows ∧
    (rows = 0 →
     file_mode_branch uploaded_files file_type s =
     (inr (),
      mkStore out (selected_sheets s) (global_matching_sheets s)
        (trace s1 ++ [Warning "No data to display after consolidation."]))) ∧
    (rows ≠ 0 → fits_sheet out →
     file_mode_branch uploaded_files file_type s =
     (inr (),
      mkStore out (selected_sheets s) (global_matching_sheets s)
        (trace s1 ++
         [Write "Consolidated Data from Files:"; Dataframe out;
          DownloadButton "Download Consolidated File" [("Sheet1", sheet_rows out)]
            (text_input
               "Enter name for the consolidated output file (without extension)"
               "consolidated" +:+ ".xlsx")]))) ∧
    (rows ≠ 0 → ¬ fits_sheet out →
     ∃ msg,
       file_mode_branch uploaded_files file_type s =
       (inl (ValueError msg),
        mkStore out (selected_sheets s) (global_matching_sheets s)
          (trace s1 ++ [Write "Consolidated Data from Files:"; Dataframe out]))).
Proof.
  intros rows. rewrite file_mode_branch_run, consolidate_files_run. cbn zeta.
  eexists _, _. split; [done|].
  assert (nrows (foldl concat DataFrame_new (omap (produced file_type) uploaded_files))
          = rows) as Hrows.
  { by rewrite nrows_foldl_concat, rows_of_produced. }
  split; [done|]. rewrite show_result_run.
  rewrite empty_of_accumulated by apply produced_has_Filename.
  rewrite Hrows. simpl. split_and!.
  - intros ->. done.
  - intros Hne Hfits. rewrite bool_decide_eq_false_2 by done.
    by rewrite export_fits.
  - intros Hne Hfits. rewrite bool_decide_eq_false_2 by done.
    destruct (export_too_large _ Hfits) as [msg ->]. by exists msg.
Qed.

End FileBranch.

(** ** A reset of the selections *)

Section Reset.

Context {readers : Readers} {widgets : Widgets}.

Lemma manual_selection_of_defaults l (session : gmap string (list string)) :
  (∀ label options default, multiselect label options default = default) →
  (∀ n, default [] (session !! n) = []) →
  ∀ n, default [] (manual_selection l session !! n) = [].
Proof.
  intros Hkeep. unfold manual_selection. revert session.
  induction l as [|f l IH]; intros session Hnone n; simpl; [done|].
  apply IH. intros n'. rewrite Hkeep.
  destruct (decide (name f = n')) as [<-|Hne].
  - rewrite lookup_insert_eq. simpl. apply Hnone.
  - rewrite lookup_insert_ne by done. apply Hnone.
Qed.

Lemma sheet_tables_nothing_selected (selected : gmap string (list string)) l :
  (∀ n, default [] (selected !! n) = []) → sheet_tables selected l = [].
Proof.
  intros Hnone. unfold sheet_tables. induction l as [|f l IH]; [done|].
  csimpl. rewrite Hnone. simpl. exact IH.
Qed.

Lemma sheet_events_nothing_selected (selected : gmap string (list string)) l :
  (∀ n, default [] (selected !! n) = []) → l ≫= sheet_events selected = [].
Proof.
  intros Hnone. induction l as [|f l IH]; [done|].
  csimpl. unfold sheet_events at 1. rewrite Hnone. simpl. exact IH.
Qed.

(** X16. After [reset_selections], whatever the session held, a run of
    the sheet branch on workbooks with an empty search term, in which the
    user leaves the multiselects as they are offered, selects no sheet:
    nothing is read, the table has no rows and the warning that there is
    no data is all that is shown. *)
Theorem reset_selections_then_sheet_mode_branch
    (uploaded_files : list UploadedFile) (s : store) :
  (∀ label options default, multiselect label options default = default) →
  Forall (fun file => ∃ sheet_names, ExcelFile_sheet_names file = inr sheet_names)
         uploaded_files →
  ∃ s',
    (reset_selections ;; sheet_mode_branch uploaded_files "") s = (inr (), s') ∧
    trace s' = trace s ++ [Warning "No data to display after consolidation."] ∧
    consolidated_data s' = DataFrame_new ∧
    ∀ n, default [] (selected_sheets s' !! n) = [].
Proof.
  intros Hkeep Hall.
  unfold mbind at 1, M_bind at 1, reset_selections, set_selected_sheets. simpl.
  rewrite sheet_mode_branch_run by done. cbn zeta. simpl.
  assert (∀ n, default [] (manual_selection uploaded_files ∅ !! n) = []) as Hnone.
  { apply manual_selection_of_defaults; [done|]. intros n. by rewrite lookup_empty. }
  rewrite sheet_tables_nothing_selected, sheet_events_nothing_selected by done.
  simpl. eexists. split; [done|]. simpl. rewrite app_nil_r. by split_and!.
Qed.

End Reset.

(** ** What is selected for a file, and what a rerun adds *)

Section Reruns.

Context {readers : Readers} {widgets : Widgets}.

Implicit Types (session : gmap string (list string)).

(** The multiselect of a file whose name no other uploaded file has
    decides the entry of the file. *)
Lemma manual_selection_lookup l session file :
  NoDup (name <$> l) → file ∈ l →
  manual_selection l session !! name file =
  Some (multiselect ("Select sheets in " +:+ name file +:+ " manually:")
                    (sheet_names_of file) (default [] (session !! name file))).
Proof.
  unfold manual_selection. revert session.
  induction l as [|f l IH]; intros session Hnd Hfile; [by inversion Hfile|].
  csimpl in Hnd. apply NoDup_cons in Hnd as [Hfresh Hnd]. cbn [foldl].
  apply elem_of_cons in Hfile as [->|Hfile].
  - clear IH. generalize dependent session.
    assert (∀ m : gmap string (list string),
              foldl (fun selected file0 =>
                       <[name file0 :=
                           multiselect
                             ("Select sheets in " +:+ name file0 +:+ " manually:")
                             (sheet_names_of file0)
                             (default [] (selected !! name file0))]> selected)
                    m l !! name f = m !! name f) as Hkeep.
    { induction l as [|f' l IH]; intros m; [done|]. cbn [foldl]. csimpl in Hfresh.
      apply not_elem_of_cons in Hfresh as [Hne Hfresh].
      apply NoDup_cons in Hnd as [_ Hnd].
      rewrite IH by done. by rewrite lookup_insert_ne. }
    intros session. by rewrite Hkeep, lookup_insert_eq.
  - rewrite IH by done. rewrite lookup_insert_ne; [done|].
    intros Heq. apply Hfresh. rewrite Heq. apply list_elem_of_fmap. by exists file.
Qed.

(** The matches of a file whose name no other uploaded file has are the
    sheets of the file that the search keeps. *)
Lemma matched_sheets_search_matches search_term l file :
  NoDup (name <$> l) → file ∈ l →
  matched_sheets (name file) (search_matches search_term l) =
  filtered_sheets search_term (sheet_names_of file).
Proof.
  unfold matched_sheets, search_matches.
  induction l as [|f l IH]; intros Hnd Hfile; [by inversion Hfile|].
  csimpl in Hnd. apply NoDup_cons in Hnd as [Hfresh Hnd]. csimpl.
  rewrite filter_app, fmap_app.
  assert (∀ (n n' : string) (sheets : list string),
            ((filter (fun match_ : string * string => match_.1 = n)
                     ((fun sheet => (n', sheet)) <$> sheets)).*2) =
            if decide (n' = n) then sheets else []) as Hone.
  { intros n n' sheets. induction sheets as [|sheet sheets IHs]; csimpl.
    - by case_decide.
    - rewrite filter_cons. simpl. case_decide; csimpl; by rewrite IHs. }
  rewrite Hone. apply elem_of_cons in Hfile as [->|Hfile].
  - rewrite decide_True by done. rewrite <- app_nil_r. f_equal.
    clear IH Hnd. induction l as [|f' l IHl]; [done|]. csimpl in *.
    apply not_elem_of_cons in Hfresh as [Hne Hfresh].
    rewrite filter_app, fmap_app, Hone, decide_False by done. by apply IHl.
  - rewrite decide_False.
    + by apply IH.
    + intros Heq. apply Hfresh. rewrite Heq. apply list_elem_of_fmap. by exists file.
Qed.

(** X17. On workbooks with distinct names whose sheet names are ASCII
    text, and with a search term that is ASCII text and not empty, what the
    sheet branch selects for a file, and consolidates of it, is what the
    multiselect of the file returned followed by the sheets of the file
    that the search keeps. *)
Theorem sheet_mode_branch_selects_picked_then_matched
    (uploaded_files : list UploadedFile) (file : UploadedFile)
    (search_term : string) (s : store) :
  Forall (fun file => ∃ sheet_names, ExcelFile_sheet_names file = inr sheet_names)
         uploaded_files →
  NoDup (name <$> uploaded_files) → file ∈ uploaded_files →
  search_term ≠ "" →
  ascii_text search_term →
  Forall (fun file => Forall (fun sheet => ascii_text sheet) (sheet_names_of file))
         uploaded_files →
  ∃ r s',
    sheet_mode_branch uploaded_files search_term s = (r, s') ∧
    default [] (selected_sheets s' !! name file) =
      multiselect ("Select sheets in " +:+ name file +:+ " manually:")
                  (sheet_names_of file)
                  (default [] (selected_sheets s !! name file)) ++
      filtered_sheets search_term (sheet_names_of file).
Proof.
  intros Hall Hnd Hfile Hterm _ _. rewrite sheet_mode_branch_run by done.
  cbn zeta.
  match goal with
  | |- context [show_result ?h ?df ?st] =>
      destruct (show_result_store h df st) as (r & shown & -> & _)
  end.
  eexists _, _. split; [done|]. simpl. unfold auto_select.
  rewrite bool_decide_eq_true_2 by done. simpl. case_bool_decide as Hm.
  - rewrite foldl_auto_select_step_lookup, manual_selection_lookup by done.
    simpl. by rewrite matched_sheets_search_matches.
  - rewrite manual_selection_lookup by done. simpl.
    rewrite <- (matched_sheets_search_matches search_term uploaded_files file)
      by done.
    rewrite Hm. unfold matched_sheets. simpl. by rewrite app_nil_r.
Qed.

Lemma manual_selection_of_kept_defaults l session :
  (∀ label options default, multiselect label options default = default) →
  ∀ n, default [] (manual_selection l session !! n) = default [] (session !! n).
Proof.
  intros Hkeep. unfold manual_selection. revert session.
  induction l as [|f l IH]; intros session n; [done|]. cbn [foldl].
  rewrite IH, Hkeep. destruct (decide (name f = n)) as [<-|Hne].
  - by rewrite lookup_insert_eq.
  - by rewrite lookup_insert_ne.
Qed.

(** X18. The selection of the session grows with every run: when the user
    leaves the multiselects as they are offered and the search term is not
    empty, a run of the sheet branch on workbooks adds to every entry the
    sheets that the search matches for it once more, after what the entry
    held. The sheet names and the search term are ASCII text. *)
Theorem sheet_mode_branch_rerun_appends_matches_again
    (uploaded_files : list UploadedFile) (search_term : string) (s : store) :
  (∀ label options default, multiselect label options default = default) →
  Forall (fun file => ∃ sheet_names, ExcelFile_sheet_names file = inr sheet_names)
         uploaded_files →
  search_term ≠ "" →
  ascii_text search_term →
  Forall (fun file => Forall (fun sheet => ascii_text sheet) (sheet_names_of file))
         uploaded_files →
  ∃ r s',
    sheet_mode_branch uploaded_files search_term s = (r, s') ∧
    ∀ n, default [] (selected_sheets s' !! n) =
         default [] (selected_sheets s !! n) ++
         matched_sheets n (search_matches search_term uploaded_files).
Proof.
  intros Hkeep Hall Hterm _ _. rewrite sheet_mode_branch_run by done. cbn zeta.
  match goal with
  | |- context [show_result ?h ?df ?st] =>
      destruct (show_result_store h df st) as (r & shown & -> & _)
  end.
  eexists _, _. split; [done|]. simpl. intros n. unfold auto_select.
  rewrite bool_decide_eq_true_2 by done. simpl. case_bool_decide as Hm.
  - by rewrite foldl_auto_select_step_lookup, manual_selection_of_kept_defaults.
  - rewrite manual_selection_of_kept_defaults by done.
    rewrite Hm. unfold matched_sheets. simpl. by rewrite app_nil_r.
Qed.

End Reruns.

(** ** The properties above on the small world *)

(** X1 on a third account. *)
Lemma register_user_then_authenticate_witness :
  register_user two_users "eve@example.org" "fern" =
    (two_users ++ [mkDocument "eve@example.org" "fern"],
     StSuccess "Registration successful.") ∧
  authenticate_user (register_user two_users "eve@example.org" "fern").1
                    "eve@example.org" "fern" = true.
Proof.
  destruct (register_user_then_authenticate two_users "eve@example.org" "fern")
    as (Hreg & Hauth & _); [by_evaluation|]. split; [exact Hreg|exact Hauth].
Defined.

(** X2 on an email that is taken. *)
Lemma register_user_existing_email_witness :
  register_user two_users "ann@example.org" "fern" =
    (two_users, StError "User already exists.") ∧
  authenticate_user (register_user two_users "ann@example.org" "fern").1
                    "ann@example.org" "fern" = false.
Proof.
  destruct (register_user_existing_email two_users "ann@example.org" "fern")
    as (Hreg & Hauth); [by_evaluation|]. split; [exact Hreg|exact Hauth].
Defined.

(** X3 on the two accounts. *)
Lemma users_emails_stay_distinct_witness :
  NoDup (emails (register_user two_users "eve@example.org" "fern").1) ∧
  NoDup (emails (change_password two_users "eve@example.org" "fern" "rose").1) ∧
  emails (change_password two_users "eve@example.org" "fern" "rose").1 =
    emails two_users.
Proof.
  apply (users_emails_stay_distinct two_users "eve@example.org" "fern" "rose").
  by_evaluation.
Defined.

(** X5 on the first account. *)
Lemma change_password_retires_old_password_witness :
  authenticate_user
    (change_password two_users "ann@example.org" "tulip" "rose").1
    "ann@example.org" "tulip" = false ∧
  authenticate_user
    (change_password two_users "ann@example.org" "tulip" "rose").1
    "bob@example.org" "maple" = true.
Proof.
  destruct (change_password_retires_old_password
              two_users "ann@example.org" "tulip" "rose")
    as (Hold & Hothers); [by_evaluation|done|done|].
  split; [exact Hold|]. by rewrite Hothers.
Defined.

(** X6 on two files with different labels and a file without bytes. *)
Lemma consolidate_files_cells_witness :
  ∃ out s',
    consolidate_files (readers := Example.readers)
      [Example.f1; Example.corrupt; Example.f2] "csv" (store_init ∅) =
      (inr out, s') ∧
    nrows out = 3 ∧
    column out "Y" = [Some (SStr "b"); Some (SStr "d"); None] ∧
    column out "Filename" =
      [Some (SStr "f1.csv"); Some (SStr "f1.csv"); Some (SStr "f2.csv")].
Proof.
  destruct (consolidate_files_cells (readers := Example.readers)
              [Example.f1; Example.corrupt; Example.f2] "csv" (store_init ∅))
    as (out & s' & Hrun & Hrows & Hcells).
  - intros file Hfile df Hload.
    repeat (apply elem_of_cons in Hfile as [->|Hfile]);
      [| |
       |by inversion Hfile];
      vm_compute in Hload; simplify_eq; by_evaluation.
  - intros file Hfile df Hload.
    repeat (apply elem_of_cons in Hfile as [->|Hfile]);
      [| |
       |by inversion Hfile];
      vm_compute in Hload; simplify_eq; by_evaluation.
  - exists out, s'. split; [exact Hrun|]. split; [exact Hrows|].
    by rewrite !Hcells.
Defined.

(** X7 on the same files. *)
Lemma consolidate_files_Filename_never_null_witness :
  ∃ file df,
    file ∈ [Example.f1; Example.corrupt; Example.f2] ∧
    load (readers := Example.readers) "csv" file = Some (inr df) ∧
    Some (SStr "f2.csv") = Some (SStr (name file)).
Proof.
  apply (consolidate_files_Filename_never_null (readers := Example.readers)
           [Example.f1; Example.corrupt; Example.f2] "csv" (store_init ∅)
           (Some (SStr "f2.csv"))).
  - intros file Hfile df Hload.
    repeat (apply elem_of_cons in Hfile as [->|Hfile]);
      [| |
       |by inversion Hfile];
      vm_compute in Hload; simplify_eq; by_evaluation.
  - by_evaluation.
Defined.

(** X9 on a workbook with a selected sheet that it does not have. *)
Lemma consolidate_sheets_rows_and_provenance_witness :
  ∃ out s',
    consolidate_sheets (readers := Example.readers)
      [Example.book; Example.other]
      {[ "book.xlsx" := ["Sales"; "Ghost"; "Costs"]; "other.xlsx" := ["Sales"] ]}
      (store_init ∅) = (inr out, s') ∧
    nrows out = 3 ∧
    column out "Filename" =
      [Some (SStr "book.xlsx"); Some (SStr "book.xlsx"); Some (SStr "other.xlsx")] ∧
    column out "Sheet Name" =
      [Some (SStr "Sales"); Some (SStr "Sales"); Some (SStr "Sales")].
Proof.
  destruct (consolidate_sheets_rows_and_provenance (readers := Example.readers)
              [Example.book; Example.other]
              {[ "book.xlsx" := ["Sales"; "Ghost"; "Costs"];
                 "other.xlsx" := ["Sales"] ]}
              (store_init ∅))
    as (out & s' & Hrun & Hrows & Hfile & Hsheet).
  - intros file sheet df Hfile Hread.
    repeat (apply elem_of_cons in Hfile as [->|Hfile]); [| |by inversion Hfile];
      cbv [read_excel Example.readers Example.open_sheet] in Hread;
      simpl in Hread; repeat case_decide; simplify_eq; by_evaluation.
  - exists out, s'. split; [exact Hrun|]. by rewrite Hrows, Hfile, Hsheet.
Defined.

(** X12 on a workbook, a file without bytes and another workbook. *)
Lemma sheet_mode_branch_raises_on_a_file_that_is_no_workbook_witness :
  ∃ s',
    sheet_mode_branch (readers := Example.readers) (widgets := Example.picks_all)
      ([Example.book] ++ Example.corrupt :: [Example.other]) "sales"
      (store_init ∅) = (inl (Exception "File is not a zip file"), s') ∧
    trace s' = [] ∧
    consolidated_data s' = DataFrame_new ∧
    selected_sheets s' !! "book.xlsx" = Some ["Sales"; "Costs"].
Proof.
  destruct (sheet_mode_branch_raises_on_a_file_that_is_no_workbook
              (readers := Example.readers) (widgets := Example.picks_all)
              [Example.book] [Example.other] Example.corrupt
              (Exception "File is not a zip file") "sales" (store_init ∅))
    as (s' & Hrun & Htrace & Hdata & Hsel).
  - constructor; [by eexists|constructor].
  - reflexivity.
  - exists s'. split; [exact Hrun|]. split; [exact Htrace|].
    split; [exact Hdata|]. by rewrite Hsel.
Defined.

(** X13 on two workbooks, with a user who selects every sheet and a term
    that matches one sheet of each. *)
Lemma sheet_mode_branch_consolidates_manual_and_matched_witness :
  ∃ s',
    sheet_mode_branch (readers := Example.readers) (widgets := Example.picks_all)
      [Example.book; Example.other] "sales" (store_init ∅) = (inr (), s') ∧
    selected_sheets s' !! "book.xlsx" = Some ["Sales"; "Costs"; "Sales"] ∧
    selected_sheets s' !! "other.xlsx" = Some ["Sales"; "Sales"] ∧
    global_matching_sheets s' = [("book.xlsx", "Sales"); ("other.xlsx", "Sales")] ∧
    nrows (consolidated_data s') = 7.
Proof.
  destruct (sheet_mode_branch_consolidates_manual_and_matched
              (readers := Example.readers) (widgets := Example.picks_all)
              [Example.book; Example.other] "sales" (store_init ∅))
    as (r & s' & Hrun & Hsel & Hmatches & Hdata & _ & Hfits & _).
  - repeat (constructor; [by eexists|]). constructor.
  - done.
  - by_evaluation.
  - assert (r = inr ()) as ->.
    { apply Hfits. rewrite Hdata, Hsel. by_evaluation. }
    exists s'. split; [exact Hrun|].
    split; [rewrite Hsel; vm_compute; reflexivity|].
    split; [rewrite Hsel; vm_compute; reflexivity|].
    split; [rewrite Hmatches; vm_compute; reflexivity|].
    rewrite Hdata, Hsel. vm_compute. reflexivity.
Defined.

(** X16 on two workbooks and a session that holds a selection. *)
Lemma reset_selections_then_sheet_mode_branch_witness :
  ∃ s',
    (reset_selections ;;
     sheet_mode_branch (readers := Example.readers) (widgets := Example.picks_none)
       [Example.book; Example.other] "")
      (mkStore DataFrame_new {[ "book.xlsx" := ["Sales"] ]} [] []) = (inr (), s') ∧
    trace s' = [Warning "No data to display after consolidation."] ∧
    consolidated_data s' = DataFrame_new.
Proof.
  destruct (reset_selections_then_sheet_mode_branch
              (readers := Example.readers) (widgets := Example.picks_none)
              [Example.book; Example.other]
              (mkStore DataFrame_new {[ "book.xlsx" := ["Sales"] ]} [] []))
    as (s' & Hrun & Htrace & Hdata & _).
  - done.
  - repeat (constructor; [by eexists|]). constructor.
  - exists s'. split; [exact Hrun|]. split; [exact Htrace|exact Hdata].
Defined.

(** X17 on two workbooks, for the first of them. *)
Lemma sheet_mode_branch_selects_picked_then_matched_witness :
  ∃ r s',
    sheet_mode_branch (readers := Example.readers) (widgets := Example.picks_all)
      [Example.book; Example.other] "cost" (store_init ∅) = (r, s') ∧
    default [] (selected_sheets s' !! "book.xlsx") =
      ["Sales"; "Costs"] ++ ["Costs"].
Proof.
  apply (sheet_mode_branch_selects_picked_then_matched
           (readers := Example.readers) (widgets := Example.picks_all)
           [Example.book; Example.other] Example.book "cost" (store_init ∅)).
  - repeat (constructor; [by eexists|]). constructor.
  - by_evaluation.
  - by left.
  - done.
  - done.
  - by_evaluation.
Defined.

(** X18 on a session that holds [Sales] of [book.xlsx] from a run before. *)
Lemma sheet_mode_branch_rerun_appends_matches_again_witness :
  ∃ r s',
    sheet_mode_branch (readers := Example.readers) (widgets := Example.picks_none)
      [Example.book] "sales"
      (mkStore DataFrame_new {[ "book.xlsx" := ["Sales"] ]} [] []) = (r, s') ∧
    default [] (selected_sheets s' !! "book.xlsx") = ["Sales"; "Sales"].
Proof.
  destruct (sheet_mode_branch_rerun_appends_matches_again
              (readers := Example.readers) (widgets := Example.picks_none)
              [Example.book] "sales"
              (mkStore DataFrame_new {[ "book.xlsx" := ["Sales"] ]} [] []))
    as (r & s' & Hrun & Hsel).
  - done.
  - repeat (constructor; [by eexists|]). constructor.
  - done.
  - done.
  - by_evaluation.
  - exists r, s'. split; [exact Hrun|]. by rewrite Hsel.
Defined.
